(** * Heat flow through a composite wall

    A shallow embedding of [heat_flow_calc.py] and [material_r_values.py]:
    the layer list, the series/parallel resistance accumulation, the
    heat-transfer outputs, and the validation done when layers and parallel
    paths are added or removed.  What [draw_layers] paints is embedded apart
    from that state, as a canvas of items, tags and tag bindings; widget
    layout, colours of outlines and fonts are not embedded.

    Python's [float] is IEEE-754 binary64; it is embedded as Rocq's primitive
    [float], which is the same format with the same rounding.  The resistance
    accumulation is written against a small arithmetic interface, of which
    binary64 is the instance the program runs. *)

From Stdlib Require Import List String ZArith Bool Lia.
From Stdlib Require Import Floats.
From Stdlib Require Import Permutation.
Import ListNotations.

Set Warnings "-inexact-float".
Set Implicit Arguments.

(** ** Exceptions and results *)

(** The Python exceptions the embedded code can raise. *)
Inductive exn : Type :=
| ValueError
| ZeroDivisionError
| IndexError
| TypeError.

(** An expression either yields a value or raises. *)
Inductive res (A : Type) : Type :=
| Ret (a : A)
| Raise (e : exn).
Arguments Ret {A} a.
Arguments Raise {A} e.

Definition res_bind {A B} (m : res A) (k : A -> res B) : res B :=
  match m with
  | Ret a => k a
  | Raise e => Raise e
  end.

Declare Scope res_scope.
Delimit Scope res_scope with res.
Notation "x <- m ;; k" := (res_bind m (fun x => k))
  (at level 100, m at next level, right associativity) : res_scope.

(** ** Arithmetic interface

    What the resistance loop needs from its numbers: [+], true division and
    the literals [0], [1] and [100].  [quot] is the quotient for a non-zero
    divisor; Python raises [ZeroDivisionError] before computing it when the
    divisor compares equal to zero. *)
Class Arith (F : Type) : Type := {
  zero : F;
  one : F;
  hundred : F;
  add : F -> F -> F;
  quot : F -> F -> F;
  is_zero : F -> bool
}.

(** Python's [x / y]. *)
Definition py_div {F} `{Arith F} (x y : F) : res F :=
  if is_zero y then Raise ZeroDivisionError else Ret (quot x y).

(** binary64, the arithmetic of the program. *)
#[export] Instance binary64 : Arith float := {
  zero := 0%float;
  one := 1%float;
  hundred := 100%float;
  add := PrimFloat.add;
  quot := PrimFloat.div;
  is_zero := fun y => (y =? 0)%float
}.

(** ** Data model *)

Section Model.
Context {F : Type} `{Arith F}.

(** One path of a parallel layer:
    [{'r_value': .., 'area_percent': .., 'material': ..}]. *)
Record path : Type := Path {
  r_value : F;
  area_percent : F;
  material : string
}.

(** A layer dict, tagged by its ['type'] key. *)
Inductive layer : Type :=
| Series (r_value : F) (material : string)
| Parallel (paths : list path).

(** *** Resistance accumulation ([calculate_heat_transfer], lines 33-47) *)

(** The inner [for path in layer['paths']] loop, carrying
    [parallel_resistance]. *)
Fixpoint paths_loop (paths : list path) (parallel_resistance : F) : res F :=
  match paths with
  | [] => Ret parallel_resistance
  | p :: rest =>
      (share <- py_div (area_percent p) hundred ;;
       term <- py_div share (r_value p) ;;
       paths_loop rest (add parallel_resistance term))%res
  end.

(** The outer [for layer in layers] loop, carrying [total_resistance]. *)
Fixpoint layers_loop (ls : list layer) (total_resistance : F) : res F :=
  match ls with
  | [] => Ret total_resistance
  | Series r _ :: rest => layers_loop rest (add total_resistance r)
  | Parallel paths :: rest =>
      (parallel_resistance <- paths_loop paths zero ;;
       inv <- py_div one parallel_resistance ;;
       layers_loop rest (add total_resistance inv))%res
  end.

(** [total_resistance] as it stands after the loop. *)
Definition total_resistance (r_inside_film r_outside_film : F)
    (ls : list layer) : res F :=
  layers_loop ls (add r_inside_film r_outside_film).

(** *** The spec's formula (section 4.1), stated on its own *)

(** [Σ_paths (areaPercent / 100) / rValue], summed left to right from 0. *)
Definition spec_conductance_terms (paths : list path) : res (list F) :=
  fold_right
    (fun p acc =>
       (share <- py_div (area_percent p) hundred ;;
        term <- py_div share (r_value p) ;;
        rest <- acc ;;
        Ret (term :: rest))%res)
    (Ret []) paths.

Definition spec_parallelConductance (paths : list path) : res F :=
  (terms <- spec_conductance_terms paths ;;
   Ret (fold_left add terms zero))%res.

(** What one layer adds to the total: its [rValue], or
    [1 / parallelConductance]. *)
Definition spec_contribution (l : layer) : res F :=
  match l with
  | Series r _ => Ret r
  | Parallel paths =>
      (c <- spec_parallelConductance paths ;; py_div one c)%res
  end.

Definition spec_contributions (ls : list layer) : res (list F) :=
  fold_right
    (fun l acc =>
       (c <- spec_contribution l ;; rest <- acc ;; Ret (c :: rest))%res)
    (Ret []) ls.

(** [filmIn + filmOut] plus every layer's contribution, in sequence order. *)
Definition spec_totalResistance (filmIn filmOut : F) (ls : list layer)
    : res F :=
  (cs <- spec_contributions ls ;;
   Ret (fold_left add cs (add filmIn filmOut)))%res.

End Model.

Arguments path F : clear implicits.
Arguments layer F : clear implicits.

(** ** The material table ([material_r_values.py]) *)

Open Scope string_scope.

Definition materials_r_values : list (string * float) := [
  ("1/2-inch Drywall (R=0.45)", 0.45%float);
  ("5/8-inch Drywall (R=0.56)", 0.56%float);
  ("1/2-inch Plywood (R=0.63)", 0.63%float);
  ("3/4-inch Plywood (R=0.94)", 0.94%float);
  ("1/2-inch OSB (R=0.50)", 0.50%float);
  ("3/4-inch Solid Wood (Pine) (R=0.81)", 0.81%float);
  ("1-inch Solid Wood (Pine) (R=1.25)", 1.25%float);
  ("1/2-inch Cement Board (R=0.20)", 0.20%float);
  ("8-inch Concrete Block (unfilled) (R=1.11)", 1.11%float);
  ("8-inch Concrete Block (foam filled) (R=2.00)", 2.00%float);
  ("8-inch Reinforced Concrete (R=1.20)", 1.20%float);
  ("3.5-inch Fiberglass Batt (R=13.00)", 13.00%float);
  ("6-inch Fiberglass Batt (R=19.00)", 19.00%float);
  ("8-inch Fiberglass Batt (R=25.00)", 25.00%float);
  ("8-inch Cellulose (Loose-Fill) (R=24.00)", 24.00%float);
  ("1-inch Extruded Polystyrene (XPS) (R=5.00)", 5.00%float);
  ("2-inch Extruded Polystyrene (XPS) (R=10.00)", 10.00%float);
  ("1-inch Expanded Polystyrene (EPS) (R=4.00)", 4.00%float);
  ("2-inch Expanded Polystyrene (EPS) (R=8.00)", 8.00%float);
  ("1-inch Polyiso Foam Board (R=6.50)", 6.50%float);
  ("2-inch Polyiso Foam Board (R=13.00)", 13.00%float)
].

(** [d[key]] on a dict given as its items; [None] is Python's [KeyError]. *)
Fixpoint dict_get (d : list (string * float)) (key : string) : option float :=
  match d with
  | [] => None
  | (k, v) :: rest => if String.eqb key k then Some v else dict_get rest key
  end.

(** ** Widget contents

    The text of an entry after [.get().strip()], kept as what Python's
    conversion makes of it: the empty string, a non-empty text on which
    [float()] (or [int()]) raises [ValueError], or a text it converts.
    [float()] converts ["nan"] and ["inf"] as well as decimal numerals. *)
Inductive field (A : Type) : Type :=
| Blank
| Unparsable
| Parsed (x : A).
Arguments Blank {A}.
Arguments Unparsable {A}.
Arguments Parsed {A} x.

(** Truthiness of the stripped text ([if typed_str:]). *)
Definition nonempty {A} (t : field A) : bool :=
  match t with
  | Blank => false
  | _ => true
  end.

(** [float(text)] and [int(text)]. *)
Definition py_float (t : field float) : res float :=
  match t with
  | Parsed x => Ret x
  | _ => Raise ValueError
  end.

Definition py_int (t : field Z) : res Z :=
  match t with
  | Parsed n => Ret n
  | _ => Raise ValueError
  end.

(** ** Message boxes and the results label *)

(** A message box, by title and text.  Texts that interpolate numbers keep
    the numbers themselves; the source prints them with two decimals
    ([:.2f]). *)
Inductive message : Type :=
| showerror (title text : string)
| showinfo (title text : string)
| askyesno (title : string) (layer_number : Z)
| showerror_total_area (total_area_used : float)
| showerror_exceeds_remaining (a_val area_left : float)
| showerror_last_path (area_left a_val : float).

(** The four quantities written to the results label. *)
Record heat_transfer : Type := HeatTransfer {
  overall_r_value : float;
  overall_u_value : float;
  heat_flow_rate_per_ft2 : float;
  total_heat_transfer : float
}.

(** The [results] variable: empty at start, the four quantities, or
    ["Please enter valid numeric values."]. *)
Inductive display : Type :=
| NoText
| Quantities (h : heat_transfer)
| InvalidNumeric.

(** ** Program state: the widgets' contents and the global [layers] *)

Record gui : Type := Gui {
  entry_t_inside : field float;
  entry_t_outside : field float;
  entry_r_inside_film : field float;
  entry_r_outside_film : field float;
  entry_wall_area : field float;
  entry_r_value : field float;
  combo_material : string;
  entry_num_paths : field Z;
  layers : list (layer float);
  results : display;
  shown : list message
}.

Definition with_layers (ls : list (layer float)) (g : gui) : gui :=
  Gui (entry_t_inside g) (entry_t_outside g) (entry_r_inside_film g)
      (entry_r_outside_film g) (entry_wall_area g) (entry_r_value g)
      (combo_material g) (entry_num_paths g) ls (results g) (shown g).

Definition with_results (d : display) (g : gui) : gui :=
  Gui (entry_t_inside g) (entry_t_outside g) (entry_r_inside_film g)
      (entry_r_outside_film g) (entry_wall_area g) (entry_r_value g)
      (combo_material g) (entry_num_paths g) (layers g) d (shown g).

Definition with_shown (ms : list message) (g : gui) : gui :=
  Gui (entry_t_inside g) (entry_t_outside g) (entry_r_inside_film g)
      (entry_r_outside_film g) (entry_wall_area g) (entry_r_value g)
      (combo_material g) (entry_num_paths g) (layers g) (results g) ms.

Definition with_entry_r_value (t : field float) (g : gui) : gui :=
  Gui (entry_t_inside g) (entry_t_outside g) (entry_r_inside_film g)
      (entry_r_outside_film g) (entry_wall_area g) t
      (combo_material g) (entry_num_paths g) (layers g) (results g) (shown g).

Definition with_combo_material (s : string) (g : gui) : gui :=
  Gui (entry_t_inside g) (entry_t_outside g) (entry_r_inside_film g)
      (entry_r_outside_film g) (entry_wall_area g) (entry_r_value g)
      s (entry_num_paths g) (layers g) (results g) (shown g).

Definition with_entry_num_paths (t : field Z) (g : gui) : gui :=
  Gui (entry_t_inside g) (entry_t_outside g) (entry_r_inside_film g)
      (entry_r_outside_film g) (entry_wall_area g) (entry_r_value g)
      (combo_material g) t (layers g) (results g) (shown g).

(** The five boundary entries. *)
Inductive boundary : Type :=
| T_inside
| T_outside
| R_inside_film
| R_outside_film
| Wall_area.

Definition with_boundary (b : boundary) (t : field float) (g : gui) : gui :=
  match b with
  | T_inside =>
      Gui t (entry_t_outside g) (entry_r_inside_film g)
          (entry_r_outside_film g) (entry_wall_area g) (entry_r_value g)
          (combo_material g) (entry_num_paths g) (layers g) (results g)
          (shown g)
  | T_outside =>
      Gui (entry_t_inside g) t (entry_r_inside_film g)
          (entry_r_outside_film g) (entry_wall_area g) (entry_r_value g)
          (combo_material g) (entry_num_paths g) (layers g) (results g)
          (shown g)
  | R_inside_film =>
      Gui (entry_t_inside g) (entry_t_outside g) t
          (entry_r_outside_film g) (entry_wall_area g) (entry_r_value g)
          (combo_material g) (entry_num_paths g) (layers g) (results g)
          (shown g)
  | R_outside_film =>
      Gui (entry_t_inside g) (entry_t_outside g) (entry_r_inside_film g)
          t (entry_wall_area g) (entry_r_value g)
          (combo_material g) (entry_num_paths g) (layers g) (results g)
          (shown g)
  | Wall_area =>
      Gui (entry_t_inside g) (entry_t_outside g) (entry_r_inside_film g)
          (entry_r_outside_film g) t (entry_r_value g)
          (combo_material g) (entry_num_paths g) (layers g) (results g)
          (shown g)
  end.

(** ** Callbacks as state transformers that may raise

    A callback runs on the state and ends normally or with an uncaught
    exception; what it changed before raising stays changed. *)
Definition M (A : Type) : Type := gui -> res A * gui.

Definition ret {A} (a : A) : M A := fun g => (Ret a, g).

Definition bind {A B} (m : M A) (k : A -> M B) : M B :=
  fun g =>
    match m g with
    | (Ret a, g') => k a g'
    | (Raise e, g') => (Raise e, g')
    end.

Definition get : M gui := fun g => (Ret g, g).

Definition modify (f : gui -> gui) : M unit := fun g => (Ret tt, f g).

Definition lift {A} (r : res A) : M A := fun g => (r, g).

(** [try: body except ValueError: handler], on callbacks. *)
Definition try_except_ValueError {A} (body handler : M A) : M A :=
  fun g =>
    match body g with
    | (Raise ValueError, g') => handler g'
    | other => other
    end.

(** Pop up a message box. *)
Definition show (m : message) : M unit :=
  modify (fun g => with_shown (shown g ++ [m]) g).

Declare Scope gui_scope.
Delimit Scope gui_scope with gui.
Notation "x <- m ;; k" := (bind m (fun x => k))
  (at level 100, m at next level, right associativity) : gui_scope.
Notation "m ;;; k" := (bind m (fun _ => k))
  (at level 100, right associativity) : gui_scope.

Open Scope float_scope.

(** ** [calculate_heat_transfer] *)

(** [draw_layers()] repaints the canvas from [layers]; it reads the state and
    changes none of what is embedded here. *)
Definition draw_layers : M unit := ret tt.

Definition calculate_heat_transfer : M unit :=
  try_except_ValueError
    (g <- get ;;
     t_inside <- lift (py_float (entry_t_inside g)) ;;
     t_outside <- lift (py_float (entry_t_outside g)) ;;
     r_inside_film <- lift (py_float (entry_r_inside_film g)) ;;
     r_outside_film <- lift (py_float (entry_r_outside_film g)) ;;
     wall_area <- lift (py_float (entry_wall_area g)) ;;
     total <- lift (total_resistance r_inside_film r_outside_film (layers g)) ;;
     q_per_ft2 <- lift (py_div (t_outside - t_inside) total) ;;
     let q_total := q_per_ft2 * wall_area in
     u_value <- lift (py_div 1 total) ;;
     modify (with_results
               (Quantities (HeatTransfer total u_value q_per_ft2 q_total))))%gui
    (modify (with_results InvalidNumeric)).

(** [auto_update], bound to [<KeyRelease>] on the five boundary entries. *)
Definition auto_update : M unit := calculate_heat_transfer.

(** ** Series layers *)

(** [on_typed_r_value_series]: a non-empty typed R-value resets the combobox
    to ["None"] (and disables it). *)
Definition on_typed_r_value_series : M unit :=
  (g <- get ;;
   if nonempty (entry_r_value g)
   then modify (with_combo_material "None")
   else ret tt)%gui.

(** [on_select_material_series]: picking a material clears the typed R-value
    (and disables the entry). *)
Definition on_select_material_series : M unit :=
  (g <- get ;;
   if String.eqb (combo_material g) "None"
   then ret tt
   else modify (with_entry_r_value Blank))%gui.

(** [add_series_layer].  The [try] block can raise nothing but [ValueError],
    so [Raise _] is its [except ValueError] branch; [key != "None" and key in
    materials_r_values] followed by [materials_r_values[key]] is one
    [dict_get]. *)
Definition add_series_layer : M unit :=
  (g <- get ;;
   let typed_str := entry_r_value g in
   let selected_mat := combo_material g in
   let source : message + float * string :=
     if nonempty typed_str then
       match
         (val <- py_float typed_str ;;
          if val <=? 0 then Raise ValueError else Ret val)%res
       with
       | Ret val => inr (val, "Custom R-value")
       | Raise _ => inl (showerror "Input Error"
                           "Please enter a positive numeric R-value.")
       end
     else
       match
         if negb (String.eqb selected_mat "None")
         then dict_get materials_r_values selected_mat
         else None
       with
       | Some r_value => inr (r_value, selected_mat)
       | None => inl (showerror "Input Error"
                        "Please type an R-value or select a material.")
       end
   in
   match source with
   | inl error => show error
   | inr (r_value, material) =>
       modify (fun g =>
                 with_layers (layers g ++ [Series r_value material]) g) ;;;
       modify (with_entry_r_value Blank) ;;;
       modify (with_combo_material "None") ;;;
       draw_layers ;;;
       calculate_heat_transfer
   end)%gui.

(** ** Parallel layers *)

(** What the path dialog holds when OK is pressed. *)
Record submission : Type := Submission {
  ent_r : field float;
  combo_r : string;
  ent_a : field float
}.

(** The outcome of one press of OK: an error box and the dialog stays open,
    or [result] is filled and the dialog closes. *)
Inductive verdict : Type :=
| Rejected (error : message)
| Accepted (rv a_val : float) (material_name : string).

(** [on_ok], the dialog's OK handler; [area_left] and [last_path] are the
    variables it closes over. *)
Definition on_ok (area_left : float) (last_path : bool) (s : submission)
    : verdict :=
  let typed_str := ent_r s in
  let sel_mat := combo_r s in
  let source : message + float * string :=
    if nonempty typed_str then
      match
        (rv <- py_float typed_str ;;
         if rv <=? 0 then Raise ValueError else Ret rv)%res
      with
      | Ret rv => inr (rv, "Custom R-value")
      | Raise _ => inl (showerror "R-value Error"
                          "Please enter a positive numeric R-value.")
      end
    else
      match
        if negb (String.eqb sel_mat "None")
        then dict_get materials_r_values sel_mat
        else None
      with
      | Some rv => inr (rv, sel_mat)
      | None => inl (showerror "Input Error"
                       "Please type an R-value or select a material.")
      end
  in
  match source with
  | inl error => Rejected error
  | inr (rv, material_name) =>
      match
        (a_val <- py_float (ent_a s) ;;
         if a_val <=? 0 then Raise ValueError else Ret a_val)%res
      with
      | Raise _ => Rejected (showerror "Area Error"
                               "Please enter a positive area percent.")
      | Ret a_val =>
          if negb last_path then
            if area_left <? a_val
            then Rejected (showerror_exceeds_remaining a_val area_left)
            else Accepted rv a_val material_name
          else
            if 1e-6 <? abs (a_val - area_left)
            then Rejected (showerror_last_path area_left a_val)
            else Accepted rv a_val material_name
      end
  end.

(** The dialog of one path.  [clicks] is what the user submits, press after
    press; the dialog closes on the first accepted submission, and when the
    presses run out the user closes the window, leaving [result] as it was
    created: [(None, None, "Custom R-value")], here [None].  For the last
    path the area entry starts out holding [str(area_left)], which converts
    back to [area_left]; a press that leaves it alone submits
    [Parsed area_left].  The title's [path_index] and [total_paths] are
    display only. *)
Fixpoint dialog (area_left : float) (last_path : bool)
    (clicks : list submission) : M (option (float * float * string)) :=
  match clicks with
  | [] => ret None
  | s :: later =>
      match on_ok area_left last_path s with
      | Rejected error => (show error ;;; dialog area_left last_path later)%gui
      | Accepted rv a_val material_name =>
          ret (Some (rv, a_val, material_name))
      end
  end.

Definition prompt_parallel_path (area_used_so_far : float) (last_path : bool)
    (clicks : list submission) : M (option (float * float * string)) :=
  let area_left := 100 - area_used_so_far in
  dialog area_left last_path clicks.

(** The [for i in range(num_paths)] loop of [add_parallel_layer], with
    [remaining] iterations to go.  [wizard] holds the user's presses, one
    list per dialog.  A dialog closed without an accepted submission hands
    back [None] for the area, and [total_area_used += area_val] raises
    [TypeError]. *)
Fixpoint paths_wizard (remaining : nat) (i num_paths : Z)
    (wizard : list (list submission)) (paths : list (path float))
    (total_area_used : float) : M (list (path float) * float) :=
  match remaining with
  | O => ret (paths, total_area_used)
  | S k =>
      let is_last_path := (i =? num_paths - 1)%Z in
      (answer <- prompt_parallel_path total_area_used is_last_path
                   (hd [] wizard) ;;
       match answer with
       | None => lift (Raise TypeError)
       | Some (r_val, area_val, material) =>
           paths_wizard k (i + 1)%Z num_paths (tl wizard)
             (paths ++ [Path r_val area_val material])
             (total_area_used + area_val)
       end)%gui
  end.

Definition add_parallel_layer (wizard : list (list submission)) : M unit :=
  (g <- get ;;
   match
     (num_paths <- py_int (entry_num_paths g) ;;
      if (num_paths <=? 0)%Z then Raise ValueError else Ret num_paths)%res
   with
   | Raise _ =>
       show (showerror "Input Error"
               "Please enter a valid positive integer for # of parallel paths.")
   | Ret num_paths =>
       built <- paths_wizard (Z.to_nat num_paths) 0%Z num_paths wizard [] 0 ;;
       let (paths, total_area_used) := built in
       if 1e-6 <? abs (total_area_used - 100)
       then show (showerror_total_area total_area_used)
       else
         modify (fun g => with_layers (layers g ++ [Parallel paths]) g) ;;;
         draw_layers ;;;
         calculate_heat_transfer
   end)%gui.

(** ** Removing layers *)

Definition delete_last_layer : M unit :=
  (g <- get ;;
   match layers g with
   | _ :: _ =>
       modify (with_layers (removelast (layers g))) ;;;
       draw_layers ;;;
       calculate_heat_transfer
   | [] => show (showinfo "No Layers" "No layers to delete.")
   end)%gui.

(** Python's [del l[index]]: a negative index counts from the end, and an
    index outside [-len(l) .. len(l) - 1] raises [IndexError]. *)
Definition py_del {A} (l : list A) (index : Z) : res (list A) :=
  let n := Z.of_nat (List.length l) in
  let i := if (index <? 0)%Z then (index + n)%Z else index in
  if ((i <? 0) || (n <=? i))%Z then Raise IndexError
  else Ret (firstn (Z.to_nat i) l ++ skipn (S (Z.to_nat i)) l)%list.

(** [confirm_delete_layer]; [response] is the user's answer to the
    yes/no box. *)
Definition confirm_delete_layer (index : Z) (response : bool) : M unit :=
  (show (askyesno "Delete Layer" (index + 1)) ;;;
   if response then
     g <- get ;;
     kept <- lift (py_del (layers g) index) ;;
     modify (with_layers kept) ;;;
     draw_layers ;;;
     calculate_heat_transfer
   else ret tt)%gui.

(** ** The running program *)

(** What the user can do between two idle moments of the main loop.  Widget
    contents may change by any means (keys, paste, a typed combobox text), so
    the [Set_] events put arbitrary contents; the handlers bound to
    [<KeyRelease>] and [<<ComboboxSelected>>] are events of their own. *)
Inductive event : Type :=
| Set_boundary (b : boundary) (text : field float)
| KeyRelease_boundary
| Set_entry_r_value (text : field float)
| KeyRelease_entry_r_value
| Set_combo_material (text : string)
| ComboboxSelected
| Set_entry_num_paths (text : field Z)
| Click_add_series
| Click_add_parallel (wizard : list (list submission))
| Click_delete_last
| Click_delete (index : Z) (response : bool).

Definition callback (ev : event) : M unit :=
  match ev with
  | Set_boundary b text => modify (with_boundary b text)
  | KeyRelease_boundary => auto_update
  | Set_entry_r_value text => modify (with_entry_r_value text)
  | KeyRelease_entry_r_value => on_typed_r_value_series
  | Set_combo_material text => modify (with_combo_material text)
  | ComboboxSelected => on_select_material_series
  | Set_entry_num_paths text => modify (with_entry_num_paths text)
  | Click_add_series => add_series_layer
  | Click_add_parallel wizard => add_parallel_layer wizard
  | Click_delete_last => delete_last_layer
  | Click_delete index response => confirm_delete_layer index response
  end.

(** Tk reports an exception that escapes a callback and keeps running, on
    the state the callback left. *)
Definition step (g : gui) (ev : event) : gui := snd (callback ev g).

Definition run (evs : list event) (g : gui) : gui := fold_left step evs g.

(** The state when [mainloop] starts: empty entries, ["None"] selected, no
    layers. *)
Definition initial : gui :=
  Gui Blank Blank Blank Blank Blank Blank "None" Blank [] NoText [].

Definition reachable (g : gui) : Prop := exists evs, g = run evs initial.

(** ** Vocabulary of the statements *)

(** The first of the user's presses that [on_ok] accepts, if any: what
    [dialog] hands back. *)
Fixpoint first_accepted (area_left : float) (last_path : bool)
    (clicks : list submission) : option (float * float * string) :=
  match clicks with
  | [] => None
  | s :: later =>
      match on_ok area_left last_path s with
      | Accepted rv a_val material_name => Some (rv, a_val, material_name)
      | Rejected _ => first_accepted area_left last_path later
      end
  end.

(** Dialogs [i .. num_paths - 1] each end in an accepted submission, which
    becomes the path of that index; [total_area_used] runs from [used] to
    [total]. *)
Inductive all_validate (num_paths : Z)
  : Z -> list (list submission) -> float -> list (path float) -> float -> Prop :=
| validate_done wizard used :
    all_validate num_paths num_paths wizard used [] used
| validate_next i wizard used rv a_val material_name rest total :
    (i < num_paths)%Z ->
    first_accepted (100 - used) (i =? num_paths - 1)%Z (hd [] wizard)
    = Some (rv, a_val, material_name) ->
    all_validate num_paths (i + 1) (tl wizard) (used + a_val) rest total ->
    all_validate num_paths i wizard used
      (Path rv a_val material_name :: rest) total.

(** The R-value source of a submission passes [on_ok]'s first check and
    yields [rv] under the label [material_name]. *)
Inductive valid_source (s : submission) (rv : float) (material_name : string)
  : Prop :=
| source_typed :
    ent_r s = Parsed rv -> (rv <=? 0) = false ->
    material_name = "Custom R-value" ->
    valid_source s rv material_name
| source_material :
    ent_r s = Blank -> combo_r s <> "None" ->
    dict_get materials_r_values (combo_r s) = Some rv ->
    material_name = combo_r s ->
    valid_source s rv material_name.

(** Every R-value held in a layer list satisfies [P]. *)
Definition path_r_values (P : float -> Prop) (ps : list (path float)) : Prop :=
  Forall (fun p => P (r_value p)) ps.

Definition layer_r_values (P : float -> Prop) (l : layer float) : Prop :=
  match l with
  | Series r _ => P r
  | Parallel ps => path_r_values P ps
  end.

Definition all_r_values (P : float -> Prop) (ls : list (layer float)) : Prop :=
  Forall (layer_r_values P) ls.

(** [total_area_used] after the paths of a layer, summed as the wizard does. *)
Definition area_sum (ps : list (path float)) : float :=
  fold_left (fun used p => used + area_percent p) ps 0.

(** The choices of both comboboxes:
    [values=["None"] + list(materials_r_values.keys())]. *)
Definition combo_values : list string :=
  "None" :: map fst materials_r_values.

(** A parallel layer as the wizard commits it: at least one path, no area
    [<= 0], and a running sum of the areas that passes the final test
    against 100. *)
Definition parallel_layer_ok (l : layer float) : Prop :=
  match l with
  | Series _ _ => True
  | Parallel ps =>
      ps <> []
      /\ Forall (fun p => (area_percent p <=? 0) = false) ps
      /\ (1e-6 <? abs (area_sum ps - 100)) = false
  end.

(** ** The handlers of the path dialog, and the user at the keyboard *)

(** [on_typed_r_value_parallel] and [on_select_material_parallel], on what
    the dialog holds: the same two rules as in the main window. *)
Definition on_typed_r_value_parallel (s : submission) : submission :=
  if nonempty (ent_r s)
  then Submission (ent_r s) "None" (ent_a s)
  else s.

Definition on_select_material_parallel (s : submission) : submission :=
  if String.eqb (combo_r s) "None"
  then s
  else Submission Blank (combo_r s) (ent_a s).

(** Edits made the usual way fire the handlers bound to them: typing into an
    entry ends in a [<KeyRelease>], picking an item of a combobox in
    [<<ComboboxSelected>>]. *)
Inductive gesture : Type :=
| Type_boundary (b : boundary) (text : field float)
| Type_r_value (text : field float)
| Pick_material (choice : string)
| Type_num_paths (text : field Z)
| Press_add_series
| Press_add_parallel (wizard : list (list submission))
| Press_delete_last
| Press_delete (index : Z) (response : bool).

Definition events_of (a : gesture) : list event :=
  match a with
  | Type_boundary b text => [Set_boundary b text; KeyRelease_boundary]
  | Type_r_value text => [Set_entry_r_value text; KeyRelease_entry_r_value]
  | Pick_material choice => [Set_combo_material choice; ComboboxSelected]
  | Type_num_paths text => [Set_entry_num_paths text]
  | Press_add_series => [Click_add_series]
  | Press_add_parallel wizard => [Click_add_parallel wizard]
  | Press_delete_last => [Click_delete_last]
  | Press_delete index response => [Click_delete index response]
  end.

(** The same in a path dialog. *)
Inductive dialog_gesture : Type :=
| Type_ent_r (text : field float)
| Pick_combo_r (choice : string)
| Type_ent_a (text : field float).

Definition dialog_step (s : submission) (a : dialog_gesture) : submission :=
  match a with
  | Type_ent_r text =>
      on_typed_r_value_parallel (Submission text (combo_r s) (ent_a s))
  | Pick_combo_r choice =>
      on_select_material_parallel (Submission (ent_r s) choice (ent_a s))
  | Type_ent_a text => Submission (ent_r s) (combo_r s) text
  end.

(** What a path dialog holds when it opens; [prefill] is [str(area_left)]
    for the last path and nothing otherwise. *)
Definition dialog_opens (prefill : field float) : submission :=
  Submission Blank "None" prefill.

(** ** The canvas ([draw_layers])

    What [draw_layers] paints, layer by layer: rectangles and texts with
    their coordinates and tags, and the commands bound to the tags.
    Outline colours, text colours and fonts are left out.  The canvas is kept
    apart from [gui]: [draw_layers_on] takes the layer list that
    [draw_layers()] reads and the canvas as the previous drawing left it. *)

(** A Python number: the coordinates mix [int] and [float]. *)
Inductive num : Type :=
| Int (z : Z)
| Flt (f : float).

(** [float(z)] for an [int]: the nearest binary64, ties to even. *)
Definition float_of_int (z : Z) : float :=
  SF2Prim (binary_normalize prec emax z 0 false).

Definition to_float (a : num) : float :=
  match a with
  | Int z => float_of_int z
  | Flt f => f
  end.

(** [a + b] and [a * b]: on two [int]s an [int], else a [float]. *)
Definition num_add (a b : num) : num :=
  match a, b with
  | Int x, Int y => Int (x + y)
  | _, _ => Flt (to_float a + to_float b)
  end.

Definition num_mul (a b : num) : num :=
  match a, b with
  | Int x, Int y => Int (x * y)
  | _, _ => Flt (to_float a * to_float b)
  end.

(** [a / b], always a [float]; the divisors in [draw_layers] are the
    literals [2] and [100]. *)
Definition num_truediv (a b : num) : num :=
  Flt (to_float a / to_float b).

(** [max(a, b)]: [b] if [b > a], else [a]. *)
Definition num_max (a b : num) : num :=
  if to_float a <? to_float b then b else a.

(** The tags [f"layer_{i}"], [f"delete_{i}"], [f"path_{i}_{j}"] and
    [f"delete_parallel_{i}"]. *)
Inductive tag : Type :=
| layer_ (i : Z)
| delete_ (i : Z)
| path_ (i j : Z)
| delete_parallel_ (i : Z).

Definition tag_eqb (a b : tag) : bool :=
  match a, b with
  | layer_ i, layer_ k => (i =? k)%Z
  | delete_ i, delete_ k => (i =? k)%Z
  | path_ i j, path_ k l => ((i =? k) && (j =? l))%Z
  | delete_parallel_ i, delete_parallel_ k => (i =? k)%Z
  | _, _ => false
  end.

(** The texts [f"R = {r_val:.2f}"], [f"R = {r_val:.2f}\n{pct}%"] and ["X"],
    by the numbers they print. *)
Inductive caption : Type :=
| R_equals (r_val : float)
| R_equals_and_pct (r_val pct : float)
| X_mark.

Inductive item : Type :=
| create_rectangle (x0 y0 x1 y1 : num) (fill : string) (tags : tag)
| create_text (x y : num) (text : caption) (tags : option tag).

Definition item_tag (it : item) : option tag :=
  match it with
  | create_rectangle _ _ _ _ _ t => Some t
  | create_text _ _ _ t => t
  end.

Inductive sequence : Type :=
| Button_1
| Enter
| Leave.

Definition sequence_eqb (a b : sequence) : bool :=
  match a, b with
  | Button_1, Button_1 | Enter, Enter | Leave, Leave => true
  | _, _ => false
  end.

(** The names handed to [show_layer_info]:
    [f"Series Layer, R={r_val:.2f}, Material: {material}"] and
    [f"Parallel Path, R={r_val:.2f}, Area={pct}%, Material: {material}"]. *)
Inductive info : Type :=
| Series_Layer (r_val : float) (material : string)
| Parallel_Path (r_val pct : float) (material : string).

(** What a bound lambda does when its event fires. *)
Inductive command : Type :=
| call_show_layer_info (name : info)
| call_confirm_delete_layer (index : Z)
| config_cursor (cursor : string).

(** The canvas: its items in drawing order, the tag bindings with the newest
    first (a binding replaces an older one for the same tag and sequence:
    lookups take the first match), and the scroll region. *)
Record canvas : Type := Canvas {
  items : list item;
  bindings : list (tag * sequence * command);
  scrollregion : Z * Z * Z * Z
}.

Definition bound (c : canvas) (t : tag) (seq : sequence) : option command :=
  match
    find (fun b => tag_eqb (fst (fst b)) t && sequence_eqb (snd (fst b)) seq)
      (bindings c)
  with
  | Some b => Some (snd b)
  | None => None
  end.

Definition create (it : item) (c : canvas) : canvas :=
  Canvas (items c ++ [it]) (bindings c) (scrollregion c).

Definition tag_bind (t : tag) (seq : sequence) (cmd : command) (c : canvas)
    : canvas :=
  Canvas (items c) ((t, seq, cmd) :: bindings c) (scrollregion c).

(** The two hover bindings every clickable tag gets. *)
Definition bind_hover (t : tag) (c : canvas) : canvas :=
  tag_bind t Leave (config_cursor "")
    (tag_bind t Enter (config_cursor "hand2") c).

(** The red button with its ["X"], bound to [confirm_delete_layer(index)]. *)
Definition draw_delete_button (delete_tag : tag) (index x : Z) (y_start : num)
    (c : canvas) : canvas :=
  let c :=
    create (create_rectangle (Int (x + 100 - 20)) (num_add y_start (Int 5))
              (Int (x + 100 - 5)) (num_add y_start (Int 20))
              "red" delete_tag) c in
  let c :=
    create (create_text (Int (x + 100 - 12)) (num_add y_start (Int 12))
              X_mark (Some delete_tag)) c in
  let c := tag_bind delete_tag Button_1 (call_confirm_delete_layer index) c in
  bind_hover delete_tag c.

(** The [for j, path in enumerate(layer['paths'])] loop of a parallel
    layer. *)
Fixpoint draw_paths (i x j : Z) (paths : list (path float)) (y_start : num)
    (c : canvas) : canvas :=
  match paths with
  | [] => c
  | p :: rest =>
      let r_val := r_value p in
      let pct := area_percent p in
      let height := num_mul (Int 200) (num_truediv (Flt pct) (Int 100)) in
      let height := num_max height (Int 30) in
      let rect_tag := path_ i j in
      let c :=
        create (create_rectangle (Int x) y_start (Int (x + 100))
                  (num_add y_start height) "green" rect_tag) c in
      let c :=
        create (create_text
                  (num_add (Int x) (num_truediv (Int 100) (Int 2)))
                  (num_add y_start (num_truediv height (Int 2)))
                  (R_equals_and_pct r_val pct) None) c in
      let c :=
        tag_bind rect_tag Button_1
          (call_show_layer_info (Parallel_Path r_val pct (material p))) c in
      let c := bind_hover rect_tag c in
      let c :=
        if (j =? 0)%Z
        then draw_delete_button (delete_parallel_ i) i x y_start c
        else c in
      draw_paths i x (j + 1) rest (num_add y_start height) c
  end.

(** The [for i, layer in enumerate(layers)] loop, carrying [x]. *)
Fixpoint draw_loop (i x : Z) (ls : list (layer float)) (c : canvas)
    : Z * canvas :=
  match ls with
  | [] => (x, c)
  | Series r_val material :: rest =>
      let rect_tag := layer_ i in
      let c :=
        create (create_rectangle (Int x) (Int 10) (Int (x + 100))
                  (Int (10 + 200)) "maroon" rect_tag) c in
      let c :=
        create (create_text
                  (num_add (Int x) (num_truediv (Int 100) (Int 2)))
                  (num_add (Int 10) (num_truediv (Int 200) (Int 2)))
                  (R_equals r_val) None) c in
      let c :=
        tag_bind rect_tag Button_1
          (call_show_layer_info (Series_Layer r_val material)) c in
      let c := bind_hover rect_tag c in
      let c := draw_delete_button (delete_ i) i x (Int 10) c in
      draw_loop (i + 1) (x + (100 + 10)) rest c
  | Parallel paths :: rest =>
      let c := draw_paths i x 0 paths (Int 10) c in
      draw_loop (i + 1) (x + (100 + 10)) rest c
  end.

(** [draw_layers], on the canvas.  [winfo_width] is the window's current
    width.  [canvas.delete("all")] removes the items; tag bindings stay. *)
Definition draw_layers_on (winfo_width : Z) (ls : list (layer float))
    (c : canvas) : canvas :=
  let c := Canvas [] (bindings c) (scrollregion c) in
  let (x, c) := draw_loop 0 10 ls c in
  let canvas_width := Z.max (x + 20) winfo_width in
  Canvas (items c) (bindings c) (0, 0, canvas_width, 600)%Z.

(** The canvas as the main program creates it. *)
Definition canvas_created : canvas := Canvas [] [] (0, 0, 800, 250)%Z.

(** The layer an item belongs to, read off its tag. *)
Definition tag_layer (t : tag) : Z :=
  match t with
  | layer_ i | delete_ i | path_ i _ | delete_parallel_ i => i
  end.

Definition is_delete_tag (t : tag) : bool :=
  match t with
  | delete_ _ | delete_parallel_ _ => true
  | _ => false
  end.

(** A [<Button-1>] binding does what its tag says: a delete tag calls
    [confirm_delete_layer] with the tag's own layer index, any other tag
    shows a layer's information. *)
Definition binding_ok (b : tag * sequence * command) : Prop :=
  snd (fst b) = Button_1 ->
  if is_delete_tag (fst (fst b))
  then snd b = call_confirm_delete_layer (tag_layer (fst (fst b)))
  else exists name, snd b = call_show_layer_info name.

(** An item of the layers [lo .. hi - 1], the first of them drawn at [x]:
    its tag is bound among [bs], and a rectangle sits in its layer's
    column. *)
Definition item_ok (lo hi x : Z) (bs : list (tag * sequence * command))
    (it : item) : Prop :=
  (forall t,
      item_tag it = Some t ->
      (lo <= tag_layer t < hi)%Z /\ exists cmd, In (t, Button_1, cmd) bs)
  /\ (forall x0 y0 x1 y1 fill t,
        it = create_rectangle x0 y0 x1 y1 fill t ->
        if is_delete_tag t
        then x0 = Int (x + 110 * (tag_layer t - lo) + 80)
             /\ x1 = Int (x + 110 * (tag_layer t - lo) + 95)
             /\ fill = "red"
        else x0 = Int (x + 110 * (tag_layer t - lo))
             /\ x1 = Int (x + 110 * (tag_layer t - lo) + 100)).

(** A parallel layer has at least one path. *)
Definition has_paths (l : layer float) : Prop :=
  match l with
  | Series _ _ => True
  | Parallel ps => ps <> []
  end.

(** What [show_layer_info] is to be told for the item tagged [t], by the
    layer list: the name built from [layers[i]], or from
    [layers[i]['paths'][j]]. *)
Definition info_of (ls : list (layer float)) (t : tag) : option info :=
  match t with
  | layer_ i =>
      match nth_error ls (Z.to_nat i) with
      | Some (Series r_val material) => Some (Series_Layer r_val material)
      | _ => None
      end
  | path_ i j =>
      match nth_error ls (Z.to_nat i) with
      | Some (Parallel paths) =>
          match nth_error paths (Z.to_nat j) with
          | Some p =>
              Some (Parallel_Path (r_value p) (area_percent p) (material p))
          | None => None
          end
      | _ => None
      end
  | delete_ _ | delete_parallel_ _ => None
  end.

(** A [<Button-1>] binding of a layer or path tag shows that layer's or
    path's own data. *)
Definition binding_shows (ls : list (layer float))
    (b : tag * sequence * command) : Prop :=
  snd (fst b) = Button_1 ->
  is_delete_tag (fst (fst b)) = false ->
  exists name,
    info_of ls (fst (fst b)) = Some name
    /\ snd b = call_show_layer_info name.

(** * Properties *)

(** ** The accumulation loop against the spec's formula *)

Section LoopVersusFormula.
Context {F : Type} `{Arith F}.

Lemma paths_loop_terms (paths : list (path F)) :
  forall acc,
    paths_loop paths acc =
    (terms <- spec_conductance_terms paths ;;
     Ret (fold_left add terms acc))%res.
Proof.
  induction paths as [|p rest IH]; intro acc; cbn [paths_loop].
  - reflexivity.
  - cbn [spec_conductance_terms fold_right].
    destruct (py_div (area_percent p) hundred) as [share|e]; cbn [res_bind];
      [|reflexivity].
    destruct (py_div share (r_value p)) as [term|e]; cbn [res_bind];
      [|reflexivity].
    rewrite IH. unfold spec_conductance_terms.
    destruct (fold_right _ _ rest); reflexivity.
Qed.

Lemma paths_loop_conductance (paths : list (path F)) :
  paths_loop paths zero = spec_parallelConductance paths.
Proof. apply paths_loop_terms. Qed.

Lemma layers_loop_contributions (ls : list (layer F)) :
  forall acc,
    layers_loop ls acc =
    (cs <- spec_contributions ls ;; Ret (fold_left add cs acc))%res.
Proof.
  induction ls as [|l rest IH]; intro acc; cbn [layers_loop].
  - reflexivity.
  - cbn [spec_contributions fold_right]. destruct l as [r m|paths].
    + cbn [spec_contribution res_bind]. rewrite IH.
      unfold spec_contributions. destruct (fold_right _ _ rest); reflexivity.
    + cbn [spec_contribution]. rewrite paths_loop_conductance.
      destruct (spec_parallelConductance paths) as [c|e]; cbn [res_bind];
        [|reflexivity].
      destruct (py_div one c) as [inv|e]; cbn [res_bind]; [|reflexivity].
      rewrite IH. unfold spec_contributions.
      destruct (fold_right _ _ rest); reflexivity.
Qed.

Lemma total_resistance_formula (filmIn filmOut : F) (ls : list (layer F)) :
  total_resistance filmIn filmOut ls = spec_totalResistance filmIn filmOut ls.
Proof. apply layers_loop_contributions. Qed.

End LoopVersusFormula.

(** ** [calculate_heat_transfer] *)

(** What the callback does once the five entries convert and the loop has
    produced a non-zero total. *)
Lemma calculate_heat_transfer_runs (g : gui)
    (t_inside t_outside r_inside_film r_outside_film wall_area total : float) :
  entry_t_inside g = Parsed t_inside ->
  entry_t_outside g = Parsed t_outside ->
  entry_r_inside_film g = Parsed r_inside_film ->
  entry_r_outside_film g = Parsed r_outside_film ->
  entry_wall_area g = Parsed wall_area ->
  total_resistance r_inside_film r_outside_film (layers g) = Ret total ->
  (total =? 0) = false ->
  calculate_heat_transfer g =
  (Ret tt,
   with_results
     (Quantities
        (HeatTransfer total (1 / total) ((t_outside - t_inside) / total)
           ((t_outside - t_inside) / total * wall_area))) g).
Proof.
  intros Hti Hto Hri Hro Ha Htotal Hnz.
  unfold calculate_heat_transfer, try_except_ValueError, bind, get, lift,
    modify.
  rewrite Hti, Hto, Hri, Hro, Ha. cbn [py_float].
  rewrite Htotal. unfold py_div. cbn [is_zero binary64 quot one].
  rewrite Hnz. reflexivity.
Qed.

(** C1.  When the five boundary entries convert to numbers, the total
    resistance shown by [calculate_heat_transfer] is [filmIn + filmOut] plus,
    layer by layer in sequence order, the layer's R-value for a series layer
    and [1 / Σ (areaPercent / 100) / rValue] for a parallel layer (the
    formula being defined and its value non-zero, so that the callback
    completes). *)
Theorem calculate_heat_transfer_total (g : gui)
    (t_inside t_outside r_inside_film r_outside_film wall_area rTotal : float) :
  entry_t_inside g = Parsed t_inside ->
  entry_t_outside g = Parsed t_outside ->
  entry_r_inside_film g = Parsed r_inside_film ->
  entry_r_outside_film g = Parsed r_outside_film ->
  entry_wall_area g = Parsed wall_area ->
  spec_totalResistance r_inside_film r_outside_film (layers g) = Ret rTotal ->
  (rTotal =? 0) = false ->
  exists h,
    calculate_heat_transfer g = (Ret tt, with_results (Quantities h) g)
    /\ overall_r_value h = rTotal.
Proof.
  intros Hti Hto Hri Hro Ha Hspec Hnz.
  rewrite <- total_resistance_formula in Hspec.
  eexists. split.
  - eapply calculate_heat_transfer_runs; eassumption.
  - reflexivity.
Qed.

(** The spec's second scenario, behind a sheet of drywall: two parallel
    paths, R 13.0 on 80% and R 1.11 on 20%, blend to about 4.14; with the
    drywall's 0.45 and the films 0.68 and 0.17 the total is about 5.44. *)
Lemma calculate_heat_transfer_total_witness :
  exists h,
    calculate_heat_transfer
      (Gui (Parsed 70) (Parsed 20) (Parsed 0.68) (Parsed 0.17) (Parsed 100)
         Blank "None" Blank
         [Series 0.45 "1/2-inch Drywall (R=0.45)";
          Parallel [Path 13.0 80 "3.5-inch Fiberglass Batt (R=13.00)";
                    Path 1.11 20 "Custom R-value"]] NoText [])
    = (Ret tt,
       with_results (Quantities h)
         (Gui (Parsed 70) (Parsed 20) (Parsed 0.68) (Parsed 0.17) (Parsed 100)
            Blank "None" Blank
            [Series 0.45 "1/2-inch Drywall (R=0.45)";
             Parallel [Path 13.0 80 "3.5-inch Fiberglass Batt (R=13.00)";
                       Path 1.11 20 "Custom R-value"]] NoText []))
    /\ overall_r_value h
       = 0.68 + 0.17 + 0.45 + 1 / (0 + 80 / 100 / 13.0 + 20 / 100 / 1.11).
Proof.
  apply (@calculate_heat_transfer_total _ 70 20 0.68 0.17 100
           (0.68 + 0.17 + 0.45 + 1 / (0 + 80 / 100 / 13.0 + 20 / 100 / 1.11)));
    reflexivity.
Defined.

(** C2.  With [rTotal] the total the loop produced (non-zero), the outputs
    are [uValue = 1 / rTotal], [fluxPerArea = (tOutside - tInside) / rTotal]
    (outside minus inside, signed) and [totalFlow = fluxPerArea * area]. *)
Theorem calculate_heat_transfer_outputs (g : gui)
    (tInside tOutside filmIn filmOut area rTotal : float) :
  entry_t_inside g = Parsed tInside ->
  entry_t_outside g = Parsed tOutside ->
  entry_r_inside_film g = Parsed filmIn ->
  entry_r_outside_film g = Parsed filmOut ->
  entry_wall_area g = Parsed area ->
  total_resistance filmIn filmOut (layers g) = Ret rTotal ->
  (rTotal =? 0) = false ->
  exists uValue fluxPerArea totalFlow,
    calculate_heat_transfer g =
    (Ret tt,
     with_results
       (Quantities (HeatTransfer rTotal uValue fluxPerArea totalFlow)) g)
    /\ uValue = 1 / rTotal
    /\ fluxPerArea = (tOutside - tInside) / rTotal
    /\ totalFlow = fluxPerArea * area.
Proof.
  intros Hti Hto Hri Hro Ha Htotal Hnz.
  do 3 eexists. split; [|repeat split].
  eapply calculate_heat_transfer_runs; eassumption.
Qed.

(** The spec's third scenario: inside 70, outside 20, total 13.85 and area
    100 give a flux near -3.61 and a flow near -361.0. *)
Lemma calculate_heat_transfer_outputs_witness :
  exists uValue fluxPerArea totalFlow,
    calculate_heat_transfer
      (Gui (Parsed 70) (Parsed 20) (Parsed 0.68) (Parsed 0.17) (Parsed 100)
         Blank "None" Blank [Series 13.0 "Custom R-value"] NoText [])
    = (Ret tt,
       with_results
         (Quantities (HeatTransfer 13.85 uValue fluxPerArea totalFlow))
         (Gui (Parsed 70) (Parsed 20) (Parsed 0.68) (Parsed 0.17)
            (Parsed 100) Blank "None" Blank [Series 13.0 "Custom R-value"]
            NoText []))
    /\ uValue = 1 / 13.85
    /\ fluxPerArea = (20 - 70) / 13.85
    /\ totalFlow = fluxPerArea * 100.
Proof.
  apply (@calculate_heat_transfer_outputs _ 70 20 0.68 0.17 100 13.85);
    reflexivity.
Defined.

(** C4.  With both film resistances zero and no layers the total is zero;
    the callback attempts the division and ends with an uncaught
    [ZeroDivisionError], leaving the results label as it was. *)
Theorem calculate_heat_transfer_zero_total_raises :
  calculate_heat_transfer
    (Gui (Parsed 70) (Parsed 20) (Parsed 0) (Parsed 0) (Parsed 100)
       Blank "None" Blank [] NoText [])
  = (Raise ZeroDivisionError,
     Gui (Parsed 70) (Parsed 20) (Parsed 0) (Parsed 0) (Parsed 100)
       Blank "None" Blank [] NoText []).
Proof. reflexivity. Qed.

(** ** What the callbacks leave alone *)

Lemma calculate_heat_transfer_layers (g : gui) :
  layers (snd (calculate_heat_transfer g)) = layers g.
Proof.
  unfold calculate_heat_transfer, try_except_ValueError, bind, get, lift,
    modify.
  destruct (py_float (entry_t_inside g)) as [ti|[]]; try reflexivity.
  destruct (py_float (entry_t_outside g)) as [to|[]]; try reflexivity.
  destruct (py_float (entry_r_inside_film g)) as [ri|[]]; try reflexivity.
  destruct (py_float (entry_r_outside_film g)) as [ro|[]]; try reflexivity.
  destruct (py_float (entry_wall_area g)) as [a|[]]; try reflexivity.
  destruct (total_resistance ri ro (layers g)) as [total|[]]; try reflexivity.
  destruct (py_div (to - ti) total) as [q|[]]; try reflexivity.
  destruct (py_div 1 total) as [u|[]]; reflexivity.
Qed.

Lemma dialog_first_accepted (area_left : float) (last_path : bool)
    (clicks : list submission) :
  forall g,
    fst (dialog area_left last_path clicks g)
    = Ret (first_accepted area_left last_path clicks)
    /\ layers (snd (dialog area_left last_path clicks g)) = layers g.
Proof.
  induction clicks as [|s later IH]; intro g; cbn [dialog first_accepted].
  - split; reflexivity.
  - destruct (on_ok area_left last_path s) as [error|rv a m].
    + unfold bind, show, modify.
      destruct (IH (with_shown (shown g ++ [error]) g)) as [Hr Hl].
      split; [exact Hr | exact Hl].
    + split; reflexivity.
Qed.

Lemma all_validate_functional (n : Z) i wizard used ps total :
  all_validate n i wizard used ps total ->
  forall ps' total',
    all_validate n i wizard used ps' total' -> ps = ps' /\ total = total'.
Proof.
  induction 1 as [wizard used|i wizard used rv a m rest total Hi Hacc _ IH];
    intros ps' total' H'; inversion H'; subst.
  - split; reflexivity.
  - lia.
  - lia.
  - match goal with
    | Ha : first_accepted _ _ _ = Some (?rv', ?a', ?m') |- _ =>
        rewrite Hacc in Ha; inversion Ha; subst
    end.
    match goal with
    | Hv : all_validate _ _ _ _ _ _ |- _ => destruct (IH _ _ Hv); subst
    end.
    split; reflexivity.
Qed.

(** The wizard loop: it never touches [layers]; it ends normally exactly when
    every remaining dialog has an accepted submission, and then hands back
    those paths after the ones it started with. *)
Lemma paths_wizard_validates (k : nat) :
  forall i n wizard paths used g,
    Z.of_nat k = (n - i)%Z ->
    layers (snd (paths_wizard k i n wizard paths used g)) = layers g
    /\ match fst (paths_wizard k i n wizard paths used g) with
       | Ret (ps, total) =>
           exists new,
             ps = (paths ++ new)%list /\ all_validate n i wizard used new total
       | Raise _ => forall new total, ~ all_validate n i wizard used new total
       end.
Proof.
  induction k as [|k IH]; intros i n wizard paths used g Hk;
    cbn [paths_wizard].
  - split; [reflexivity|]. cbn [ret fst]. exists []. split.
    + now rewrite app_nil_r.
    + replace i with n by lia. constructor.
  - unfold bind, prompt_parallel_path.
    destruct (dialog_first_accepted (100 - used) (i =? n - 1)%Z
                (hd [] wizard) g) as [Hr Hl].
    destruct (dialog (100 - used) (i =? n - 1)%Z (hd [] wizard) g)
      as [r g1] eqn:Hd. cbn [fst snd] in Hr, Hl. subst r.
    destruct (first_accepted (100 - used) (i =? n - 1)%Z (hd [] wizard))
      as [[[rv a] m]|] eqn:Hacc.
    + specialize (IH (i + 1)%Z n (tl wizard)
                    (paths ++ [Path rv a m])%list (used + a) g1
                    ltac:(lia)).
      destruct IH as [IHl IHr]. split; [congruence|].
      destruct (fst (paths_wizard k (i + 1) n (tl wizard)
                       (paths ++ [Path rv a m]) (used + a) g1))
        as [[ps total]|e].
      * destruct IHr as [new [Hps Hv]]. exists (Path rv a m :: new). split.
        -- rewrite Hps, <- app_assoc. reflexivity.
        -- econstructor; [lia|exact Hacc|exact Hv].
      * intros new total Hv. inversion Hv; subst; [lia|].
        match goal with
        | Ha : first_accepted _ _ _ = Some _ |- _ =>
            rewrite Hacc in Ha; inversion Ha; subst
        end.
        eapply IHr; eassumption.
    + cbn [lift fst snd]. split; [exact Hl|].
      intros new total Hv. inversion Hv; subst; [lia|congruence].
Qed.

(** When [add_parallel_layer] changes [layers] at all, it appends one
    parallel layer made of validated paths. *)
Lemma add_parallel_layer_appends
    (wizard : list (list submission)) (g : gui) :
  layers (snd (add_parallel_layer wizard g)) = layers g
  \/ exists num_paths paths total,
       all_validate num_paths 0 wizard 0 paths total
       /\ layers (snd (add_parallel_layer wizard g))
          = (layers g ++ [Parallel paths])%list.
Proof.
  unfold add_parallel_layer, bind, get.
  destruct (entry_num_paths g) as [| |n]; cbn [py_int res_bind];
    try (left; reflexivity).
  destruct (n <=? 0)%Z eqn:Hpos; [left; reflexivity|].
  apply Z.leb_gt in Hpos.
  destruct (paths_wizard_validates (Z.to_nat n) 0 n wizard [] 0 g
              ltac:(lia)) as [Hl Hr].
  destruct (paths_wizard (Z.to_nat n) 0 n wizard [] 0 g) as [r g1].
  cbn [fst snd] in Hl, Hr. destruct r as [[ps total]|e]; [|left; exact Hl].
  destruct Hr as [new [Hps Hv]]. cbn [app] in Hps. subst new.
  destruct (1e-6 <? abs (total - 100)); [left; exact Hl|].
  right. exists n, ps, total. split; [exact Hv|].
  unfold modify, draw_layers, ret. cbn [snd].
  rewrite calculate_heat_transfer_layers. cbn [layers with_layers].
  now rewrite Hl.
Qed.

(** C3.  [add_parallel_layer] is all-or-nothing on [layers]: either every one
    of the [num_paths] dialogs ended in a validated path and the total passed
    the final 100% check, and exactly that parallel layer was appended; or
    one of these failed and [layers] is what it was. *)
Theorem add_parallel_layer_all_or_nothing
    (wizard : list (list submission)) (g : gui) :
  (exists num_paths paths total,
      entry_num_paths g = Parsed num_paths /\ (0 < num_paths)%Z
      /\ all_validate num_paths 0 wizard 0 paths total
      /\ (1e-6 <? abs (total - 100)) = false
      /\ layers (snd (add_parallel_layer wizard g))
         = (layers g ++ [Parallel paths])%list)
  \/ (layers (snd (add_parallel_layer wizard g)) = layers g
      /\ ~ exists num_paths paths total,
            entry_num_paths g = Parsed num_paths /\ (0 < num_paths)%Z
            /\ all_validate num_paths 0 wizard 0 paths total
            /\ (1e-6 <? abs (total - 100)) = false).
Proof.
  unfold add_parallel_layer, bind, get.
  destruct (entry_num_paths g) as [| |n] eqn:Hn; cbn [py_int res_bind].
  - right. split; [reflexivity|]. intros (n & ps & t & Habs & _). discriminate.
  - right. split; [reflexivity|]. intros (n & ps & t & Habs & _). discriminate.
  - destruct (n <=? 0)%Z eqn:Hpos.
    + right. split; [reflexivity|]. intros (n' & ps & t & Heq & Hlt & _).
      inversion Heq; subst. apply Z.leb_le in Hpos. lia.
    + apply Z.leb_gt in Hpos.
      destruct (paths_wizard_validates (Z.to_nat n) 0 n wizard [] 0 g
                  ltac:(lia)) as [Hl Hr].
      destruct (paths_wizard (Z.to_nat n) 0 n wizard [] 0 g) as [r g1] eqn:Hw.
      cbn [fst snd] in Hl, Hr. destruct r as [[ps total]|e].
      * destruct Hr as [new [Hps Hv]]. cbn [app] in Hps. subst new.
        destruct (1e-6 <? abs (total - 100)) eqn:Hcheck.
        -- right. split; [exact Hl|].
           intros (n' & ps' & t' & Heq & _ & Hv' & Hcheck').
           inversion Heq; subst n'.
           destruct (all_validate_functional Hv Hv') as [_ Ht]. subst t'.
           congruence.
        -- left. exists n, ps, total. repeat split; try assumption.
           unfold modify, draw_layers, ret. cbn [snd].
           rewrite calculate_heat_transfer_layers. cbn [layers with_layers].
           now rewrite Hl.
      * right. split; [exact Hl|].
        intros (n' & ps' & t' & Heq & _ & Hv' & _).
        inversion Heq; subst n'. exact (Hr _ _ Hv').
Qed.

(** ** Comparisons of binary64 numbers

    Facts about [<?] and [<=?] read off the IEEE-754 specification of the
    primitive operations. *)

Lemma SFcompare_swap (x y : spec_float) :
  SFcompare y x = option_map CompOpp (SFcompare x y).
Proof.
  destruct x as [sx|sx| |sx mx ex], y as [sy|sy| |sy my ey]; cbn;
    try reflexivity;
    try (destruct sx; reflexivity); try (destruct sy; reflexivity);
    try (destruct sx, sy; reflexivity).
  change (Pos.compare_cont Eq my mx) with (Pos.compare my mx).
  change (Pos.compare_cont Eq mx my) with (Pos.compare mx my).
  rewrite (Z.compare_antisym ex ey), (Pos.compare_antisym mx my).
  destruct sx, sy; cbn; try reflexivity;
    destruct (ex ?= ey)%Z; cbn; try reflexivity;
    destruct (mx ?= my)%positive; reflexivity.
Qed.

Lemma is_nan_spec (x : float) : is_nan x = false -> Prim2SF x <> S754_nan.
Proof.
  unfold is_nan. rewrite FloatAxioms.eqb_spec. intros H E. rewrite E in H.
  discriminate.
Qed.

Lemma SFcompare_numbers (x y : spec_float) :
  x <> S754_nan -> y <> S754_nan -> exists c, SFcompare x y = Some c.
Proof.
  intros Hx Hy.
  destruct x as [sx|sx| |sx mx ex], y as [sy|sy| |sy my ey]; cbn;
    try congruence; eexists; reflexivity.
Qed.

Lemma ltb_irrefl (x : float) : (x <? x) = false.
Proof.
  rewrite FloatAxioms.ltb_spec. unfold SFltb.
  pose proof (SFcompare_swap (Prim2SF x) (Prim2SF x)) as H.
  destruct (SFcompare (Prim2SF x) (Prim2SF x)) as [[]|]; try reflexivity.
  discriminate.
Qed.

Lemma ltb_negb_leb (x y : float) :
  is_nan x = false -> is_nan y = false -> (y <? x) = negb (x <=? y).
Proof.
  intros Hx Hy. rewrite FloatAxioms.ltb_spec, FloatAxioms.leb_spec.
  unfold SFltb, SFleb.
  rewrite (SFcompare_swap (Prim2SF x) (Prim2SF y)).
  destruct (SFcompare_numbers (is_nan_spec x Hx) (is_nan_spec y Hy)) as [c Hc].
  rewrite Hc. destruct c; reflexivity.
Qed.

Lemma abs_is_nan (x : float) : is_nan x = false -> is_nan (abs x) = false.
Proof.
  unfold is_nan. rewrite !FloatAxioms.eqb_spec, FloatAxioms.abs_spec.
  unfold SFeqb.
  destruct (Prim2SF x) as [s|s| |s m e]; cbn; try (intro; assumption);
    try reflexivity.
  intros _. rewrite Z.compare_refl, Pos.compare_cont_refl. reflexivity.
Qed.

Lemma sub_zero (x : float) : x - 0 = x.
Proof.
  apply Prim2SF_inj. rewrite FloatAxioms.sub_spec.
  change (Prim2SF 0) with (S754_zero false). unfold SF64sub.
  destruct (Prim2SF x) as [[]|[]| |s m e]; reflexivity.
Qed.

Lemma abs_positive (x : float) : (0 <? x) = true -> abs x = x.
Proof.
  rewrite FloatAxioms.ltb_spec. change (Prim2SF 0) with (S754_zero false).
  intro H. apply Prim2SF_inj. rewrite FloatAxioms.abs_spec.
  destruct (Prim2SF x) as [[]|[]| |[] m e]; cbn in *; try reflexivity;
    discriminate.
Qed.

(** ** The OK handler once the R-value source has passed *)

Lemma on_ok_valid_source (s : submission) (rv : float) (m : string)
    (area_left : float) (last_path : bool) :
  valid_source s rv m ->
  on_ok area_left last_path s =
  match ent_a s with
  | Parsed a_val =>
      if a_val <=? 0
      then Rejected (showerror "Area Error"
                       "Please enter a positive area percent.")
      else if negb last_path then
             if area_left <? a_val
             then Rejected (showerror_exceeds_remaining a_val area_left)
             else Accepted rv a_val m
           else
             if 1e-6 <? abs (a_val - area_left)
             then Rejected (showerror_last_path area_left a_val)
             else Accepted rv a_val m
  | _ => Rejected (showerror "Area Error"
                     "Please enter a positive area percent.")
  end.
Proof.
  intros [Hr Hpos Hm|Hr Hsel Hget Hm]; unfold on_ok; rewrite Hr;
    cbn [nonempty py_float res_bind].
  - rewrite Hpos. subst m.
    destruct (ent_a s) as [| |a]; cbn [py_float res_bind]; try reflexivity.
    destruct (a <=? 0); reflexivity.
  - apply String.eqb_neq in Hsel. rewrite Hsel. cbn [negb]. rewrite Hget.
    subst m.
    destruct (ent_a s) as [| |a]; cbn [py_float res_bind]; try reflexivity.
    destruct (a <=? 0); reflexivity.
Qed.

(** C6, as the code has it.  For the last path, a numeric [v] submitted with
    a valid R-value source is accepted iff [0 < v] and
    [|v - remainingArea| <= 1e-6]; a positive [v] outside the tolerance is
    rejected with the box that names the remaining area and the entered
    value; [v <= 0] is rejected with the positive-area box, whatever the
    remaining area. *)
Theorem on_ok_last_path (s : submission) (rv : float) (m : string)
    (remainingArea v : float) :
  valid_source s rv m ->
  ent_a s = Parsed v ->
  is_nan v = false ->
  is_nan (v - remainingArea) = false ->
  (on_ok remainingArea true s = Accepted rv v m
   <-> (0 <? v) = true /\ (abs (v - remainingArea) <=? 1e-6) = true)
  /\ ((0 <? v) = true ->
      (abs (v - remainingArea) <=? 1e-6) = false ->
      on_ok remainingArea true s
      = Rejected (showerror_last_path remainingArea v))
  /\ ((v <=? 0) = true ->
      on_ok remainingArea true s
      = Rejected (showerror "Area Error"
                    "Please enter a positive area percent.")).
Proof.
  intros Hsrc Ha Hv Hd.
  rewrite (on_ok_valid_source remainingArea true Hsrc), Ha. cbn [negb].
  assert (Hpos : (0 <? v) = negb (v <=? 0))
    by (apply ltb_negb_leb; [exact Hv|reflexivity]).
  assert (Htol : (1e-6 <? abs (v - remainingArea))
                 = negb (abs (v - remainingArea) <=? 1e-6))
    by (apply ltb_negb_leb; [apply abs_is_nan; exact Hd|reflexivity]).
  rewrite Hpos, Htol.
  destruct (v <=? 0); destruct (abs (v - remainingArea) <=? 1e-6);
    cbn [negb]; repeat split; intros; try reflexivity; try discriminate;
    try (destruct H; discriminate).
Qed.

(** The spec's last scenario: 90% used, 5% submitted for the last path, and
    the box reports the 10% remaining. *)
Lemma on_ok_last_path_witness :
  on_ok 10 true (Submission (Parsed 1.11) "None" (Parsed 5))
  = Rejected (showerror_last_path 10 5).
Proof.
  refine (proj1 (proj2
    (@on_ok_last_path (Submission (Parsed 1.11) "None" (Parsed 5))
       1.11 "Custom R-value" 10 5 _ _ _ _)) _ _);
    try reflexivity.
  apply source_typed; reflexivity.
Defined.

(** C6 fails as stated: with nothing remaining (a first path took 100%), a
    last-path area of 0 lies within the tolerance of the remaining area and
    is still rejected; and a rejected area of -5 with 10% remaining gets the
    positive-area box, which reports no remaining area. *)
Lemma on_ok_last_path_counterexample :
  (abs (0 - (100 - 100)) <=? 1e-6) = true
  /\ on_ok (100 - 100) true (Submission (Parsed 1.11) "None" (Parsed 0))
     = Rejected (showerror "Area Error"
                   "Please enter a positive area percent.")
  /\ on_ok (100 - 90) true (Submission (Parsed 1.11) "None" (Parsed (-5)))
     = Rejected (showerror "Area Error"
                   "Please enter a positive area percent.").
Proof. repeat split; reflexivity. Qed.

(** C10.  A non-last path may take the whole remaining area (the bound is
    [<=]); when the earlier paths already total 100 the last path is accepted
    exactly for numeric areas [v] with [0 < v <= 1e-6]; and a layer whose
    areas sum to [100 + 1e-6] is committed. *)
Theorem on_ok_area_bounds (s : submission) (rv : float) (m : string)
    (v : float) :
  valid_source s rv m ->
  ent_a s = Parsed v ->
  ((v <=? 0) = false -> on_ok v false s = Accepted rv v m)
  /\ (is_nan v = false ->
      (on_ok (100 - 100) true s = Accepted rv v m
       <-> (0 <? v) = true /\ (v <=? 1e-6) = true))
  /\ (exists paths,
        layers
          (snd (add_parallel_layer
                  [ [Submission (Parsed 13) "None" (Parsed 100)];
                    [Submission (Parsed 1.11) "None" (Parsed 1e-6)] ]
                  (with_entry_num_paths (Parsed 2%Z) initial)))
        = [Parallel paths]
        /\ area_sum paths = 100 + 1e-6
        /\ (100 <? area_sum paths) = true).
Proof.
  intros Hsrc Ha. split; [|split].
  - intro Hpos.
    rewrite (on_ok_valid_source v false Hsrc), Ha, Hpos. cbn [negb].
    now rewrite ltb_irrefl.
  - intro Hv.
    rewrite (on_ok_valid_source (100 - 100) true Hsrc), Ha. cbn [negb].
    change (100 - 100) with 0. rewrite sub_zero.
    assert (Hpos : (0 <? v) = negb (v <=? 0))
      by (apply ltb_negb_leb; [exact Hv|reflexivity]).
    rewrite Hpos. destruct (v <=? 0) eqn:Hle; cbn [negb].
    + split; [discriminate|]. intros [H _]. discriminate.
    + rewrite (@abs_positive v) by exact Hpos.
      rewrite (@ltb_negb_leb v 1e-6) by (exact Hv || reflexivity).
      destruct (v <=? 1e-6); cbn [negb]; split; intros;
        try reflexivity; try discriminate; try (split; reflexivity).
      destruct H; discriminate.
  - eexists. repeat split.
Qed.

(** A first path that takes the whole 100%, and then a last path of 5e-7
    against the 0% that remains: both pass [on_ok]. *)
Lemma on_ok_area_bounds_witness :
  on_ok 100 false (Submission (Parsed 13) "None" (Parsed 100))
  = Accepted 13 100 "Custom R-value"
  /\ on_ok (100 - 100) true (Submission (Parsed 1.11) "None" (Parsed 5e-7))
     = Accepted 1.11 5e-7 "Custom R-value".
Proof.
  split.
  - refine (proj1
      (@on_ok_area_bounds (Submission (Parsed 13) "None" (Parsed 100))
         13 "Custom R-value" 100 _ _) _);
      try reflexivity.
    apply source_typed; reflexivity.
  - refine (proj2 (proj1 (proj2
      (@on_ok_area_bounds (Submission (Parsed 1.11) "None" (Parsed 5e-7))
         1.11 "Custom R-value" 5e-7 _ _)) _) _);
      try reflexivity.
    + apply source_typed; reflexivity.
    + split; reflexivity.
Defined.

(** ** R-value sources *)

(** C5, as the code has it.  A typed R-value decides alone: when it is a
    number not [<= 0] the series layer is stored with it under
    ["Custom R-value"] whatever the combobox holds, and [on_ok] gives the
    same verdict as with ["None"] selected; a request with no typed text and
    no table material is turned down with
    ["Please type an R-value or select a material."] and stores nothing.
    Keeping the two inputs apart is the widget handlers' work: a key release
    on a non-empty R-value entry resets the combobox to ["None"], and picking
    a material empties the entry. *)
Theorem typed_r_value_decides (g : gui) (v : float) :
  entry_r_value g = Parsed v ->
  (v <=? 0) = false ->
  layers (snd (add_series_layer g))
  = (layers g ++ [Series v "Custom R-value"])%list
  /\ (forall sel a area_left last_path,
        on_ok area_left last_path (Submission (Parsed v) sel a)
        = on_ok area_left last_path (Submission (Parsed v) "None" a))
  /\ (forall g',
        entry_r_value g' = Blank ->
        combo_material g' = "None"
        \/ dict_get materials_r_values (combo_material g') = None ->
        add_series_layer g'
        = (Ret tt,
           with_shown
             (shown g'
              ++ [showerror "Input Error"
                    "Please type an R-value or select a material."]) g'))
  /\ (forall g',
        nonempty (entry_r_value g') = true ->
        combo_material (snd (on_typed_r_value_series g')) = "None")
  /\ (forall g',
        combo_material g' <> "None" ->
        entry_r_value (snd (on_select_material_series g')) = Blank).
Proof.
  intros Hr Hpos. split; [|split; [|split; [|split]]].
  - unfold add_series_layer, bind, get. rewrite Hr.
    cbn [nonempty py_float res_bind]. rewrite Hpos.
    unfold modify, draw_layers, ret. cbn [snd].
    rewrite calculate_heat_transfer_layers. reflexivity.
  - intros sel a area_left last_path. unfold on_ok.
    cbn [ent_r combo_r ent_a nonempty py_float res_bind]. reflexivity.
  - intros g' Hblank Hnone. unfold add_series_layer, bind, get.
    rewrite Hblank. cbn [nonempty].
    destruct Hnone as [Hn|Hn]; rewrite Hn.
    + reflexivity.
    + destruct (negb (String.eqb (combo_material g') "None")); reflexivity.
  - intros g' Htyped. unfold on_typed_r_value_series, bind, get.
    rewrite Htyped. reflexivity.
  - intros g' Hsel. unfold on_select_material_series, bind, get.
    apply String.eqb_neq in Hsel. rewrite Hsel. reflexivity.
Qed.

(** R 5 typed while the drywall entry is selected: the layer is stored with
    the typed value. *)
Lemma typed_r_value_decides_witness :
  layers
    (snd (add_series_layer
            (Gui (Parsed 70) (Parsed 20) (Parsed 0.68) (Parsed 0.17)
               (Parsed 100) (Parsed 5) "1/2-inch Drywall (R=0.45)" Blank
               [] NoText [])))
  = [Series 5 "Custom R-value"].
Proof.
  refine (proj1
    (@typed_r_value_decides
       (Gui (Parsed 70) (Parsed 20) (Parsed 0.68) (Parsed 0.17)
          (Parsed 100) (Parsed 5) "1/2-inch Drywall (R=0.45)" Blank
          [] NoText []) 5 _ _));
    reflexivity.
Defined.

(** C5 fails as stated: with R 5 typed and the drywall entry of the table
    selected, both sources are present, yet [add_series_layer] stores a
    layer and [on_ok] accepts the path. *)
Lemma both_sources_present_counterexample :
  dict_get materials_r_values "1/2-inch Drywall (R=0.45)" = Some 0.45
  /\ add_series_layer
       (Gui Blank Blank Blank Blank Blank
          (Parsed 5) "1/2-inch Drywall (R=0.45)" Blank [] NoText [])
     = (Ret tt,
        Gui Blank Blank Blank Blank Blank
          Blank "None" Blank [Series 5 "Custom R-value"] InvalidNumeric [])
  /\ on_ok 100 false
       (Submission (Parsed 5) "1/2-inch Drywall (R=0.45)" (Parsed 40))
     = Accepted 5 40 "Custom R-value".
Proof. repeat split; reflexivity. Qed.

(** ** Stored R-values *)

(** C7.  The typed text ["nan"] converts to a float that is not [<= 0], so
    the guard lets it through: [add_series_layer] stores an R-value that is
    not strictly positive, and so does the path wizard. *)
Theorem nan_r_value_is_stored :
  (0 <? nan) = false
  /\ layers (snd (add_series_layer (with_entry_r_value (Parsed nan) initial)))
     = [Series nan "Custom R-value"]
  /\ layers
       (snd (add_parallel_layer
               [ [Submission (Parsed nan) "None" (Parsed 100)] ]
               (with_entry_num_paths (Parsed 1%Z) initial)))
     = [Parallel [Path nan 100 "Custom R-value"]].
Proof. repeat split; reflexivity. Qed.

Lemma materials_r_values_not_nonpositive (key : string) (v : float) :
  dict_get materials_r_values key = Some v -> (v <=? 0) = false.
Proof.
  unfold materials_r_values. cbn [dict_get].
  repeat match goal with
         | |- (if ?b then _ else _) = _ -> _ =>
             destruct b; [intro E; inversion E; reflexivity|]
         end.
  discriminate.
Qed.

Lemma on_ok_accepted_r_value area_left last_path s rv a m :
  on_ok area_left last_path s = Accepted rv a m -> (rv <=? 0) = false.
Proof.
  unfold on_ok. destruct (nonempty (ent_r s)).
  - destruct (ent_r s) as [| |x]; cbn [py_float res_bind];
      try discriminate.
    destruct (x <=? 0) eqn:Hx; [discriminate|].
    destruct (ent_a s) as [| |y]; cbn [py_float res_bind]; try discriminate.
    destruct (y <=? 0); [discriminate|].
    destruct (negb last_path);
      [destruct (area_left <? y)|destruct (1e-6 <? abs (y - area_left))];
      intro E; inversion E; subst; try discriminate; exact Hx.
  - destruct (negb (String.eqb (combo_r s) "None")); [|discriminate].
    destruct (dict_get materials_r_values (combo_r s)) as [x|] eqn:Hget;
      [|discriminate].
    apply materials_r_values_not_nonpositive in Hget.
    destruct (ent_a s) as [| |y]; cbn [py_float res_bind]; try discriminate.
    destruct (y <=? 0); [discriminate|].
    destruct (negb last_path);
      [destruct (area_left <? y)|destruct (1e-6 <? abs (y - area_left))];
      intro E; inversion E; subst; try discriminate; exact Hget.
Qed.

Lemma first_accepted_r_value area_left last_path clicks rv a m :
  first_accepted area_left last_path clicks = Some (rv, a, m) ->
  (rv <=? 0) = false.
Proof.
  induction clicks as [|s later IH]; cbn [first_accepted]; [discriminate|].
  destruct (on_ok area_left last_path s) as [e|rv' a' m'] eqn:Hok.
  - exact IH.
  - intro E; inversion E; subst. eapply on_ok_accepted_r_value; eassumption.
Qed.

Lemma all_validate_r_values n i wizard used ps total :
  all_validate n i wizard used ps total ->
  path_r_values (fun r => (r <=? 0) = false) ps.
Proof.
  induction 1 as [|i wizard used rv a m rest total _ Hacc _ IH].
  - constructor.
  - constructor; [|exact IH]. cbn [r_value].
    eapply first_accepted_r_value; eassumption.
Qed.

Lemma firstn_keeps {A} (P : A -> Prop) (l : list A) :
  Forall P l -> forall n, Forall P (firstn n l).
Proof.
  induction 1 as [|x l Hx Hl IH]; intros [|n]; cbn [firstn];
    try constructor; auto.
Qed.

Lemma skipn_keeps {A} (P : A -> Prop) (l : list A) :
  Forall P l -> forall n, Forall P (skipn n l).
Proof.
  induction 1 as [|x l Hx Hl IH]; intros [|n]; cbn [skipn];
    try constructor; auto.
Qed.

Lemma py_del_keeps {A} (P : A -> Prop) (l kept : list A) (index : Z) :
  py_del l index = Ret kept -> Forall P l -> Forall P kept.
Proof.
  unfold py_del.
  destruct (_ || _)%bool; [discriminate|].
  intros E Hl. injection E as E. subst kept. apply Forall_app. split.
  - apply firstn_keeps; exact Hl.
  - exact (skipn_keeps Hl (S _)).
Qed.

Lemma removelast_keeps {A} (P : A -> Prop) (l : list A) :
  Forall P l -> Forall P (removelast l).
Proof.
  induction 1 as [|x l Hx Hl IH]; cbn [removelast]; [constructor|].
  destruct l; [constructor|]. constructor; assumption.
Qed.

(** *** No R-value [<= 0] is ever stored *)

Lemma add_series_layer_keeps (g : gui) :
  all_r_values (fun r => (r <=? 0) = false) (layers g) ->
  all_r_values (fun r => (r <=? 0) = false) (layers (snd (add_series_layer g))).
Proof.
  intro Hinv. unfold add_series_layer, bind, get.
  destruct (nonempty (entry_r_value g)).
  - destruct (entry_r_value g) as [| |x]; cbn [py_float res_bind];
      try exact Hinv.
    destruct (x <=? 0) eqn:Hx; [exact Hinv|].
    unfold modify, draw_layers, ret. cbn [snd].
    rewrite calculate_heat_transfer_layers. cbn [layers with_layers].
    apply Forall_app. split; [exact Hinv|]. repeat constructor. exact Hx.
  - destruct (negb (String.eqb (combo_material g) "None")); [|exact Hinv].
    destruct (dict_get materials_r_values (combo_material g)) as [x|] eqn:Hget;
      [|exact Hinv].
    unfold modify, draw_layers, ret. cbn [snd].
    rewrite calculate_heat_transfer_layers. cbn [layers with_layers].
    apply Forall_app. split; [exact Hinv|]. repeat constructor.
    eapply materials_r_values_not_nonpositive; eassumption.
Qed.

Lemma callback_keeps (ev : event) (g : gui) :
  all_r_values (fun r => (r <=? 0) = false) (layers g) ->
  all_r_values (fun r => (r <=? 0) = false) (layers (snd (callback ev g))).
Proof.
  intro Hinv. destruct ev as [b t| |t| |t| |t| |wizard| |index response];
    cbn [callback].
  - destruct b; exact Hinv.
  - unfold auto_update. now rewrite calculate_heat_transfer_layers.
  - exact Hinv.
  - unfold on_typed_r_value_series, bind, get.
    destruct (nonempty (entry_r_value g)); exact Hinv.
  - exact Hinv.
  - unfold on_select_material_series, bind, get.
    destruct (String.eqb (combo_material g) "None"); exact Hinv.
  - exact Hinv.
  - apply add_series_layer_keeps; exact Hinv.
  - destruct (add_parallel_layer_appends wizard g)
      as [Hl|(n & ps & total & Hv & Hl)]; rewrite Hl.
    + exact Hinv.
    + apply Forall_app. split; [exact Hinv|]. repeat constructor.
      eapply all_validate_r_values; eassumption.
  - unfold delete_last_layer, bind, get.
    destruct (layers g) as [|l ls] eqn:Hls.
    + cbn [show modify snd layers with_shown]. rewrite Hls. constructor.
    + unfold modify, draw_layers, ret. cbn [snd].
      rewrite calculate_heat_transfer_layers. cbn [layers with_layers].
      apply removelast_keeps. exact Hinv.
  - unfold confirm_delete_layer, bind, show, modify, get, lift.
    destruct response; [|exact Hinv]. cbn [layers with_shown].
    destruct (py_del (layers g) index) as [kept|e] eqn:Hdel; [|exact Hinv].
    unfold draw_layers, ret. cbn [snd].
    rewrite calculate_heat_transfer_layers. cbn [layers with_layers].
    eapply py_del_keeps; eassumption.
Qed.

Lemma run_keeps (evs : list event) :
  forall g,
    all_r_values (fun r => (r <=? 0) = false) (layers g) ->
    all_r_values (fun r => (r <=? 0) = false) (layers (run evs g)).
Proof.
  induction evs as [|ev evs IH]; intros g Hinv; cbn [run fold_left].
  - exact Hinv.
  - apply IH. apply callback_keeps. exact Hinv.
Qed.

(** In every state the program can reach, no stored R-value, of a series
    layer or of a parallel path, compares [<= 0]: zero and negative typed
    values are turned down before anything is stored, and the table holds
    none. *)
Theorem reachable_r_values_not_nonpositive (g : gui) :
  reachable g -> all_r_values (fun r => (r <=? 0) = false) (layers g).
Proof.
  intros [evs ->]. apply run_keeps. constructor.
Qed.

Lemma reachable_r_values_not_nonpositive_witness :
  all_r_values (fun r => (r <=? 0) = false)
    (layers
       (run [Set_entry_r_value (Parsed 13); Click_add_series;
             Set_entry_num_paths (Parsed 2%Z);
             Click_add_parallel
               [ [Submission (Parsed 13) "None" (Parsed 80)];
                 [Submission Blank "8-inch Concrete Block (unfilled) (R=1.11)"
                    (Parsed 20)] ]]
          initial)).
Proof.
  apply reachable_r_values_not_nonpositive. eexists. reflexivity.
Defined.

(** ** Removing layers *)

(** C8, as the code has it.  Once confirmed, [confirm_delete_layer] deletes
    the layer at an index within [0 .. len - 1]; it makes no existence check
    of its own, and for an index at or past [len] (or below [-len]) Python's
    [del] raises [IndexError] out of the callback, with [layers] unchanged;
    declined, it changes nothing.  [delete_last_layer] on an empty list shows
    ["No layers to delete."] and changes nothing else. *)
Theorem remove_layer_behaviour (g : gui) (index : Z) :
  ((0 <= index < Z.of_nat (List.length (layers g)))%Z ->
   layers (snd (confirm_delete_layer index true g))
   = (firstn (Z.to_nat index) (layers g)
      ++ skipn (S (Z.to_nat index)) (layers g))%list)
  /\ ((Z.of_nat (List.length (layers g)) <= index
       \/ index < - Z.of_nat (List.length (layers g)))%Z ->
      fst (confirm_delete_layer index true g) = Raise IndexError
      /\ layers (snd (confirm_delete_layer index true g)) = layers g)
  /\ layers (snd (confirm_delete_layer index false g)) = layers g
  /\ (layers g = [] ->
      delete_last_layer g
      = (Ret tt,
         with_shown
           (shown g ++ [showinfo "No Layers" "No layers to delete."]) g)).
Proof.
  split; [|split; [|split]].
  - intros [Hlo Hhi].
    unfold confirm_delete_layer, bind, show, modify, get, lift, py_del.
    cbn [layers with_shown].
    destruct (index <? 0)%Z eqn:Hneg; [apply Z.ltb_lt in Hneg; lia|].
    rewrite Hneg. cbn [orb].
    destruct (Z.of_nat (List.length (layers g)) <=? index)%Z eqn:Hle;
      [apply Z.leb_le in Hle; lia|].
    unfold draw_layers, ret. cbn [snd].
    rewrite calculate_heat_transfer_layers. reflexivity.
  - intro Hout.
    unfold confirm_delete_layer, bind, show, modify, get, lift, py_del.
    cbn [layers with_shown].
    destruct (index <? 0)%Z eqn:Hneg.
    + apply Z.ltb_lt in Hneg.
      destruct (index + Z.of_nat (List.length (layers g)) <? 0)%Z eqn:Hlt;
        [split; reflexivity|apply Z.ltb_ge in Hlt; lia].
    + apply Z.ltb_ge in Hneg. rewrite (proj2 (Z.ltb_ge index 0) Hneg).
      cbn [orb].
      destruct (Z.of_nat (List.length (layers g)) <=? index)%Z eqn:Hle;
        [split; reflexivity|apply Z.leb_gt in Hle; lia].
  - reflexivity.
  - intro Hempty. unfold delete_last_layer, bind, get. rewrite Hempty.
    reflexivity.
Qed.

(** Deleting index 1 of a one-layer list raises and keeps the layer. *)
Lemma remove_layer_behaviour_witness :
  fst (confirm_delete_layer 1 true
         (with_layers [Series 13 "Custom R-value"] initial))
  = Raise IndexError
  /\ layers (snd (confirm_delete_layer 1 true
                    (with_layers [Series 13 "Custom R-value"] initial)))
     = [Series 13 "Custom R-value"].
Proof.
  apply (proj1 (proj2
    (remove_layer_behaviour
       (with_layers [Series 13 "Custom R-value"] initial) 1))).
  left. cbn. lia.
Defined.

(** C8 fails as stated: on an empty list, deleting index 0 ends in an
    uncaught [IndexError] rather than a reported not-found result, while
    [delete_last_layer] does report; and index -1, which names no layer of a
    one-layer list, deletes that layer. *)
Lemma remove_layer_counterexample :
  fst (confirm_delete_layer 0 true initial) = Raise IndexError
  /\ fst (delete_last_layer initial) = Ret tt
  /\ layers (snd (confirm_delete_layer (-1) true
                    (with_layers [Series 13 "Custom R-value"] initial)))
     = [].
Proof. repeat split; reflexivity. Qed.

(** ** Reordering layers *)

Lemma py_div_raises {F} `{Arith F} (x y : F) (e : exn) :
  py_div x y = Raise e -> e = ZeroDivisionError.
Proof.
  unfold py_div. destruct (is_zero y); intro E; inversion E; reflexivity.
Qed.

Lemma paths_loop_raises {F} `{Arith F} (paths : list (path F)) :
  forall acc e, paths_loop paths acc = Raise e -> e = ZeroDivisionError.
Proof.
  induction paths as [|p rest IH]; intros acc e; cbn [paths_loop];
    [discriminate|].
  destruct (py_div (area_percent p) hundred) as [share|e1] eqn:H1;
    cbn [res_bind].
  - destruct (py_div share (r_value p)) as [term|e2] eqn:H2; cbn [res_bind].
    + apply IH.
    + intro E; inversion E; subst. eapply py_div_raises; eassumption.
  - intro E; inversion E; subst. eapply py_div_raises; eassumption.
Qed.

(** What a layer adds to the total does not depend on where it stands: a
    permuted layer list adds the same amounts, permuted, and fails when the
    original fails. *)
Lemma spec_contribution_raises {F} `{Arith F} (l : layer F) (e : exn) :
  spec_contribution l = Raise e -> e = ZeroDivisionError.
Proof.
  destruct l as [r m|paths]; cbn [spec_contribution]; [discriminate|].
  rewrite <- paths_loop_conductance.
  destruct (paths_loop paths zero) as [c|e1] eqn:Hp; cbn [res_bind].
  - intro E. eapply py_div_raises. exact E.
  - intro E; inversion E; subst. eapply paths_loop_raises; eassumption.
Qed.

Lemma spec_contributions_cons {F} `{Arith F} (l : layer F)
    (rest : list (layer F)) :
  spec_contributions (l :: rest)
  = (c <- spec_contribution l ;;
     cs <- spec_contributions rest ;;
     Ret (c :: cs))%res.
Proof. reflexivity. Qed.

Lemma spec_contributions_permutation {F} `{Arith F}
    (ls ls' : list (layer F)) :
  Permutation ls ls' ->
  (forall cs,
      spec_contributions ls = Ret cs ->
      exists cs', spec_contributions ls' = Ret cs' /\ Permutation cs cs')
  /\ (forall e,
        spec_contributions ls = Raise e -> spec_contributions ls' = Raise e).
Proof.
  induction 1
    as [|x l l' _ [IHr IHe]|x y l|l l' l'' _ [IH1r IH1e] _ [IH2r IH2e]].
  - split; [|discriminate].
    intros cs E. exists cs. split; [exact E|apply Permutation_refl].
  - rewrite !spec_contributions_cons.
    destruct (spec_contribution x) as [c|ex]; cbn [res_bind];
      [|split; [discriminate|exact (fun e E => E)]].
    destruct (spec_contributions l) as [cs0|e0].
    + destruct (IHr cs0 eq_refl) as (cs0' & E' & P). rewrite E'.
      cbn [res_bind]. split; [|discriminate].
      intros cs E. injection E as <-. exists (c :: cs0').
      split; [reflexivity|apply perm_skip; exact P].
    + rewrite (IHe e0 eq_refl). cbn [res_bind].
      split; [discriminate|exact (fun e E => E)].
  - rewrite !spec_contributions_cons.
    destruct (spec_contribution x) as [cx|ex] eqn:Ex,
             (spec_contribution y) as [cy|ey] eqn:Ey; cbn [res_bind];
      try (split; [discriminate|exact (fun e E => E)]).
    + destruct (spec_contributions l) as [cs0|e0]; cbn [res_bind];
        [|split; [discriminate|exact (fun e E => E)]].
      split; [|discriminate].
      intros cs E. injection E as <-. exists (cx :: cy :: cs0).
      split; [reflexivity|apply perm_swap].
    + rewrite (spec_contribution_raises _ Ex),
        (spec_contribution_raises _ Ey).
      split; [discriminate|exact (fun e E => E)].
  - split.
    + intros cs E. destruct (IH1r cs E) as (cs1 & E1 & P1).
      destruct (IH2r cs1 E1) as (cs2 & E2 & P2).
      exists cs2. split; [exact E2|].
      apply Permutation_trans with (l' := cs1); assumption.
    + intros e E. apply IH2e. apply IH1e. exact E.
Qed.

(** C9, as far as it holds of the program.  On binary64, the loop over a
    permutation of the layer list fails with the same exception exactly when
    the loop over the original does; and when it returns, both totals are
    left-to-right sums, from [filmIn + filmOut], of the same per-layer
    resistances, taken in the two orders.  The sums themselves need not be
    equal (see the counterexample). *)
Theorem total_resistance_permutation (filmIn filmOut : float)
    (ls ls' : list (layer float)) :
  Permutation ls ls' ->
  (forall e,
      total_resistance filmIn filmOut ls = Raise e
      <-> total_resistance filmIn filmOut ls' = Raise e)
  /\ (forall total,
        total_resistance filmIn filmOut ls = Ret total ->
        exists cs cs',
          spec_contributions ls = Ret cs
          /\ spec_contributions ls' = Ret cs'
          /\ Permutation cs cs'
          /\ total = fold_left PrimFloat.add cs (filmIn + filmOut)
          /\ total_resistance filmIn filmOut ls'
             = Ret (fold_left PrimFloat.add cs' (filmIn + filmOut))).
Proof.
  intro Hperm. rewrite !total_resistance_formula. unfold spec_totalResistance.
  destruct (spec_contributions_permutation Hperm) as [Hr He].
  destruct (spec_contributions_permutation (Permutation_sym Hperm))
    as [_ He'].
  split.
  - intro e. split; intro E.
    + destruct (spec_contributions ls) as [cs|e0]; cbn [res_bind] in E;
        [discriminate|].
      rewrite (He e0 eq_refl). exact E.
    + destruct (spec_contributions ls') as [cs|e0]; cbn [res_bind] in E;
        [discriminate|].
      rewrite (He' e0 eq_refl). exact E.
  - intros total E.
    destruct (spec_contributions ls) as [cs|e0]; cbn [res_bind] in E;
      [|discriminate].
    destruct (Hr cs eq_refl) as (cs' & E' & P).
    exists cs, cs'. rewrite E'. injection E as <-.
    repeat split; try reflexivity. exact P.
Qed.

Lemma total_resistance_permutation_witness :
  exists cs cs',
    spec_contributions
      [Series 0.45 "1/2-inch Drywall (R=0.45)";
       Parallel [Path 13 80 "3.5-inch Fiberglass Batt (R=13.00)";
                 Path 1.11 20 "Custom R-value"]]
    = Ret cs
    /\ spec_contributions
         [Parallel [Path 13 80 "3.5-inch Fiberglass Batt (R=13.00)";
                    Path 1.11 20 "Custom R-value"];
          Series 0.45 "1/2-inch Drywall (R=0.45)"]
       = Ret cs'
    /\ Permutation cs cs'
    /\ 5.437041284403669 = fold_left PrimFloat.add cs (0.68 + 0.17)
    /\ total_resistance 0.68 0.17
         [Parallel [Path 13 80 "3.5-inch Fiberglass Batt (R=13.00)";
                    Path 1.11 20 "Custom R-value"];
          Series 0.45 "1/2-inch Drywall (R=0.45)"]
       = Ret (fold_left PrimFloat.add cs' (0.68 + 0.17)).
Proof.
  apply (proj2
           (@total_resistance_permutation 0.68 0.17
              [Series 0.45 "1/2-inch Drywall (R=0.45)";
               Parallel [Path 13 80 "3.5-inch Fiberglass Batt (R=13.00)";
                         Path 1.11 20 "Custom R-value"]]
              [Parallel [Path 13 80 "3.5-inch Fiberglass Batt (R=13.00)";
                         Path 1.11 20 "Custom R-value"];
               Series 0.45 "1/2-inch Drywall (R=0.45)"]
              (perm_swap _ _ _))).
  reflexivity.
Defined.

(** C9 fails as stated on the program's binary64 numbers.  With films 0.68
    and 0.17, drywall (0.45) before the batt (13.0) totals
    14.300000000000001 and the batt before the drywall totals
    14.299999999999999.  The difference is not confined to the last digits:
    with films -1e16 and 0, the layers 1e16 and 1 total 1 in this order and 0
    in the other, on which [calculate_heat_transfer] ends in
    [ZeroDivisionError] instead of showing its results. *)
Lemma total_resistance_permutation_counterexample :
  Permutation
    [Series 0.45 "1/2-inch Drywall (R=0.45)";
     Series 13.0 "3.5-inch Fiberglass Batt (R=13.00)"]
    [Series 13.0 "3.5-inch Fiberglass Batt (R=13.00)";
     Series 0.45 "1/2-inch Drywall (R=0.45)"]
  /\ total_resistance 0.68 0.17
       [Series 0.45 "1/2-inch Drywall (R=0.45)";
        Series 13.0 "3.5-inch Fiberglass Batt (R=13.00)"]
     <> total_resistance 0.68 0.17
          [Series 13.0 "3.5-inch Fiberglass Batt (R=13.00)";
           Series 0.45 "1/2-inch Drywall (R=0.45)"]
  /\ total_resistance (-1e16) 0
       [Series 1e16 "Custom R-value"; Series 1 "Custom R-value"]
     = Ret 1
  /\ total_resistance (-1e16) 0
       [Series 1 "Custom R-value"; Series 1e16 "Custom R-value"]
     = Ret 0
  /\ fst (calculate_heat_transfer
            (Gui (Parsed 70) (Parsed 20) (Parsed (-1e16)) (Parsed 0)
               (Parsed 100) Blank "None" Blank
               [Series 1e16 "Custom R-value"; Series 1 "Custom R-value"]
               NoText []))
     = Ret tt
  /\ fst (calculate_heat_transfer
            (Gui (Parsed 70) (Parsed 20) (Parsed (-1e16)) (Parsed 0)
               (Parsed 100) Blank "None" Blank
               [Series 1 "Custom R-value"; Series 1e16 "Custom R-value"]
               NoText []))
     = Raise ZeroDivisionError.
Proof.
  split; [apply perm_swap|].
  split; [|repeat split; reflexivity].
  intro E.
  apply (f_equal (fun r => match r with
                           | Ret x => x <? 14.3
                           | Raise _ => false
                           end)) in E.
  vm_compute in E. discriminate.
Qed.

(** * Further properties of the callbacks *)

(** ** [calculate_heat_transfer]: bad input, exceptions, repetition *)

(** As soon as one of the five boundary entries does not convert, the
    callback ends normally with ["Please enter valid numeric values."] in the
    results label, whatever the layers are, and changes nothing else. *)
Theorem calculate_heat_transfer_invalid_input (g : gui) :
  py_float (entry_t_inside g) = Raise ValueError
  \/ py_float (entry_t_outside g) = Raise ValueError
  \/ py_float (entry_r_inside_film g) = Raise ValueError
  \/ py_float (entry_r_outside_film g) = Raise ValueError
  \/ py_float (entry_wall_area g) = Raise ValueError ->
  calculate_heat_transfer g = (Ret tt, with_results InvalidNumeric g).
Proof.
  intro Hbad.
  unfold calculate_heat_transfer, try_except_ValueError, bind, get, lift,
    modify.
  destruct (py_float (entry_t_inside g)) as [ti|[]] eqn:H1;
    try reflexivity; try (destruct (entry_t_inside g); discriminate).
  destruct (py_float (entry_t_outside g)) as [to|[]] eqn:H2;
    try reflexivity; try (destruct (entry_t_outside g); discriminate).
  destruct (py_float (entry_r_inside_film g)) as [ri|[]] eqn:H3;
    try reflexivity; try (destruct (entry_r_inside_film g); discriminate).
  destruct (py_float (entry_r_outside_film g)) as [ro|[]] eqn:H4;
    try reflexivity; try (destruct (entry_r_outside_film g); discriminate).
  destruct (py_float (entry_wall_area g)) as [a|[]] eqn:H5;
    try reflexivity; try (destruct (entry_wall_area g); discriminate).
  destruct Hbad as [H|[H|[H|[H|H]]]]; discriminate.
Qed.

(** The wall area left empty, with everything else filled in and a layer
    stored: the label asks for valid numbers. *)
Lemma calculate_heat_transfer_invalid_input_witness :
  calculate_heat_transfer
    (Gui (Parsed 70) (Parsed 20) (Parsed 0.68) (Parsed 0.17) Blank
       Blank "None" Blank [Series 13 "Custom R-value"] NoText [])
  = (Ret tt,
     Gui (Parsed 70) (Parsed 20) (Parsed 0.68) (Parsed 0.17) Blank
       Blank "None" Blank [Series 13 "Custom R-value"] InvalidNumeric []).
Proof.
  apply (@calculate_heat_transfer_invalid_input
           (Gui (Parsed 70) (Parsed 20) (Parsed 0.68) (Parsed 0.17) Blank
              Blank "None" Blank [Series 13 "Custom R-value"] NoText [])).
  right; right; right; right. reflexivity.
Defined.

Lemma layers_loop_raises {F} `{Arith F} (ls : list (layer F)) :
  forall acc e, layers_loop ls acc = Raise e -> e = ZeroDivisionError.
Proof.
  induction ls as [|l rest IH]; intros acc e; cbn [layers_loop];
    [discriminate|].
  destruct l as [r m|paths]; [apply IH|].
  destruct (paths_loop paths zero) as [pr|e1] eqn:Hp; cbn [res_bind].
  - destruct (py_div one pr) as [inv|e2] eqn:Hd; cbn [res_bind].
    + apply IH.
    + intro E; inversion E; subst. eapply py_div_raises; eassumption.
  - intro E; inversion E; subst. eapply paths_loop_raises; eassumption.
Qed.

(** The only exception that can escape the callback is
    [ZeroDivisionError]; when it does, all five entries had converted and
    the state, results label included, is exactly what it was. *)
Theorem calculate_heat_transfer_escapes (g : gui) (e : exn) :
  fst (calculate_heat_transfer g) = Raise e ->
  e = ZeroDivisionError
  /\ snd (calculate_heat_transfer g) = g
  /\ exists t_inside t_outside r_inside_film r_outside_film wall_area,
       entry_t_inside g = Parsed t_inside
       /\ entry_t_outside g = Parsed t_outside
       /\ entry_r_inside_film g = Parsed r_inside_film
       /\ entry_r_outside_film g = Parsed r_outside_film
       /\ entry_wall_area g = Parsed wall_area
       /\ (total_resistance r_inside_film r_outside_film (layers g)
           = Raise ZeroDivisionError
           \/ exists total,
                total_resistance r_inside_film r_outside_film (layers g)
                = Ret total
                /\ (total =? 0) = true).
Proof.
  unfold calculate_heat_transfer, try_except_ValueError, bind, get, lift,
    modify.
  destruct (entry_t_inside g) as [| |ti]; cbn [py_float fst];
    try discriminate.
  destruct (entry_t_outside g) as [| |to]; cbn [py_float fst];
    try discriminate.
  destruct (entry_r_inside_film g) as [| |ri]; cbn [py_float fst];
    try discriminate.
  destruct (entry_r_outside_film g) as [| |ro]; cbn [py_float fst];
    try discriminate.
  destruct (entry_wall_area g) as [| |a]; cbn [py_float fst];
    try discriminate.
  destruct (total_resistance ri ro (layers g)) as [total|e1] eqn:Ht.
  - unfold py_div. cbn [is_zero binary64].
    destruct (total =? 0) eqn:Hz; cbn [fst snd]; [|discriminate].
    intro E; inversion E; subst. repeat split.
    exists ti, to, ri, ro, a. repeat split. right. exists total. now split.
  - pose proof (layers_loop_raises _ _ Ht) as He. subst e1. cbn [fst snd].
    intro E; inversion E; subst. repeat split.
    exists ti, to, ri, ro, a. repeat split. now left.
Qed.

(** A parallel layer whose single path has R [inf] blends to a conductance
    of zero: the callback raises and the label keeps its old text. *)
Lemma calculate_heat_transfer_escapes_witness :
  snd (calculate_heat_transfer
         (Gui (Parsed 70) (Parsed 20) (Parsed 0.68) (Parsed 0.17)
            (Parsed 100) Blank "None" Blank
            [Parallel [Path infinity 100 "Custom R-value"]] NoText []))
  = Gui (Parsed 70) (Parsed 20) (Parsed 0.68) (Parsed 0.17)
      (Parsed 100) Blank "None" Blank
      [Parallel [Path infinity 100 "Custom R-value"]] NoText [].
Proof.
  apply (proj1 (proj2
    (@calculate_heat_transfer_escapes
       (Gui (Parsed 70) (Parsed 20) (Parsed 0.68) (Parsed 0.17)
          (Parsed 100) Blank "None" Blank
          [Parallel [Path infinity 100 "Custom R-value"]] NoText [])
       ZeroDivisionError eq_refl))).
Defined.

(** Recomputing twice is recomputing once: the second run ends the same way
    and leaves the same state. *)
Theorem calculate_heat_transfer_idempotent (g : gui) :
  calculate_heat_transfer (snd (calculate_heat_transfer g))
  = calculate_heat_transfer g.
Proof.
  destruct g as [e1 e2 e3 e4 e5 er cm np ls rs sh].
  unfold calculate_heat_transfer, try_except_ValueError, bind, get, lift,
    modify, py_div.
  cbn [entry_t_inside entry_t_outside entry_r_inside_film
         entry_r_outside_film entry_wall_area layers is_zero binary64].
  destruct e1 as [| |ti]; try reflexivity.
  destruct e2 as [| |to]; try reflexivity.
  destruct e3 as [| |ri]; try reflexivity.
  destruct e4 as [| |ro]; try reflexivity.
  destruct e5 as [| |a]; try reflexivity.
  cbn [py_float].
  destruct (total_resistance ri ro ls) as [total|e] eqn:Ht; cbn [snd].
  - destruct (total =? 0) eqn:Hz; cbn [snd].
    + cbn [entry_t_inside entry_t_outside entry_r_inside_film
             entry_r_outside_film entry_wall_area layers py_float].
      rewrite Ht, Hz. reflexivity.
    + cbn [with_results entry_t_inside entry_t_outside entry_r_inside_film
             entry_r_outside_film entry_wall_area layers py_float].
      rewrite Ht, Hz. reflexivity.
  - destruct e; cbn [snd entry_t_inside entry_t_outside entry_r_inside_film
                       entry_r_outside_film entry_wall_area layers py_float
                       with_results];
      rewrite ?Ht; reflexivity.
Qed.

(** ** Divisions inside the loop *)

Lemma not_nonpositive_not_zero (r : float) :
  (r <=? 0) = false -> (r =? 0) = false.
Proof.
  rewrite FloatAxioms.leb_spec, FloatAxioms.eqb_spec. unfold SFleb, SFeqb.
  destruct (SFcompare (Prim2SF r) (Prim2SF 0)) as [[]|]; congruence.
Qed.

Lemma paths_loop_returns (ps : list (path float)) :
  path_r_values (fun r => (r <=? 0) = false) ps ->
  forall acc, exists c, paths_loop ps acc = Ret c.
Proof.
  induction 1 as [|p rest Hp _ IH]; intro acc; cbn [paths_loop].
  - eexists; reflexivity.
  - unfold py_div at 1. cbn [is_zero binary64 hundred].
    change (100 =? 0) with false. cbn [res_bind].
    unfold py_div. cbn [is_zero binary64].
    rewrite (not_nonpositive_not_zero Hp). cbn [res_bind]. apply IH.
Qed.

(** In every state the program can reach, the loop over the paths of a
    stored parallel layer never divides by zero: [area / 100 / r_value] is
    computed for every path, from any starting sum. *)
Theorem stored_paths_never_divide_by_zero (g : gui)
    (ps : list (path float)) (acc : float) :
  reachable g ->
  In (Parallel ps) (layers g) ->
  exists c, paths_loop ps acc = Ret c.
Proof.
  intros [evs ->] Hin.
  assert (Hinv : all_r_values (fun r => (r <=? 0) = false)
                   (layers (run evs initial)))
    by (apply run_keeps; constructor).
  unfold all_r_values in Hinv. rewrite Forall_forall in Hinv.
  apply paths_loop_returns. exact (Hinv _ Hin).
Qed.

Lemma stored_paths_never_divide_by_zero_witness :
  exists c,
    paths_loop
      [Path 13 80 "Custom R-value";
       Path 1.11 20 "8-inch Concrete Block (unfilled) (R=1.11)"] 0
    = Ret c.
Proof.
  apply (@stored_paths_never_divide_by_zero
           (run [Set_entry_num_paths (Parsed 2%Z);
                 Click_add_parallel
                   [ [Submission (Parsed 13) "None" (Parsed 80)];
                     [Submission Blank
                        "8-inch Concrete Block (unfilled) (R=1.11)"
                        (Parsed 20)] ]]
              initial)).
  - eexists. reflexivity.
  - left. reflexivity.
Defined.

(** ** How the total grows with the layer list *)

Lemma layers_loop_app {F} `{Arith F} (l1 l2 : list (layer F)) :
  forall acc,
    layers_loop (l1 ++ l2)%list acc
    = (t <- layers_loop l1 acc ;; layers_loop l2 t)%res.
Proof.
  induction l1 as [|l rest IH]; intro acc; cbn [app layers_loop].
  - reflexivity.
  - destruct l as [r m|paths]; [apply IH|].
    destruct (paths_loop paths zero) as [pr|e]; cbn [res_bind];
      [|reflexivity].
    destruct (py_div one pr) as [inv|e]; cbn [res_bind]; [|reflexivity].
    apply IH.
Qed.

(** The total of a layer list extended at its end is the total of the list,
    then the loop continued over the new layers: what was computed for the
    old layers is not touched by what is appended, in any arithmetic; in
    particular a series layer appended adds exactly its R-value. *)
Theorem total_resistance_app {F} `{Arith F} (filmIn filmOut : F)
    (ls more : list (layer F)) (r : F) (m : string) :
  total_resistance filmIn filmOut (ls ++ more)%list
  = (t <- total_resistance filmIn filmOut ls ;; layers_loop more t)%res
  /\ total_resistance filmIn filmOut (ls ++ [Series r m])%list
     = (t <- total_resistance filmIn filmOut ls ;; Ret (add t r))%res.
Proof.
  unfold total_resistance. split; rewrite layers_loop_app; [reflexivity|].
  destruct (layers_loop ls (add filmIn filmOut)); reflexivity.
Qed.

(** Adding a series layer raises the displayed R by exactly the typed value:
    if the entries convert and the layers so far total [t], then after
    [add_series_layer] with [v] typed the label shows [t + v] (provided
    [t + v] is not zero, so that the recomputation completes). *)
Theorem add_series_layer_adds_to_total (g : gui)
    (t_inside t_outside r_inside_film r_outside_film wall_area t v : float) :
  entry_t_inside g = Parsed t_inside ->
  entry_t_outside g = Parsed t_outside ->
  entry_r_inside_film g = Parsed r_inside_film ->
  entry_r_outside_film g = Parsed r_outside_film ->
  entry_wall_area g = Parsed wall_area ->
  total_resistance r_inside_film r_outside_film (layers g) = Ret t ->
  entry_r_value g = Parsed v ->
  (v <=? 0) = false ->
  (t + v =? 0) = false ->
  fst (add_series_layer g) = Ret tt
  /\ exists u q qt,
       results (snd (add_series_layer g))
       = Quantities (HeatTransfer (t + v) u q qt).
Proof.
  intros Hti Hto Hri Hro Ha Ht Hv Hpos Hnz.
  unfold add_series_layer, bind, get. rewrite Hv.
  cbn [nonempty py_float res_bind]. rewrite Hpos.
  unfold modify, draw_layers, ret.
  erewrite calculate_heat_transfer_runs with (total := t + v);
    try eassumption.
  - cbn [fst snd results with_results]. split; [reflexivity|].
    do 3 eexists. reflexivity.
  - cbn [layers with_combo_material with_entry_r_value with_layers].
    unfold total_resistance in *. rewrite layers_loop_app, Ht. reflexivity.
Qed.

Lemma add_series_layer_adds_to_total_witness :
  fst (add_series_layer
         (Gui (Parsed 70) (Parsed 20) (Parsed 0.68) (Parsed 0.17)
            (Parsed 100) (Parsed 13) "None" Blank [] NoText []))
  = Ret tt
  /\ exists u q qt,
       results
         (snd (add_series_layer
                 (Gui (Parsed 70) (Parsed 20) (Parsed 0.68) (Parsed 0.17)
                    (Parsed 100) (Parsed 13) "None" Blank [] NoText [])))
       = Quantities (HeatTransfer (0.68 + 0.17 + 13) u q qt).
Proof.
  apply (@add_series_layer_adds_to_total
           (Gui (Parsed 70) (Parsed 20) (Parsed 0.68) (Parsed 0.17)
              (Parsed 100) (Parsed 13) "None" Blank [] NoText [])
           70 20 0.68 0.17 100 (0.68 + 0.17) 13);
    reflexivity.
Defined.

(** ** Series layers: materials, bad numbers, undoing *)

Lemma calculate_heat_transfer_only_results (g : gui) :
  exists d, snd (calculate_heat_transfer g) = with_results d g.
Proof.
  destruct g as [e1 e2 e3 e4 e5 er cm np ls rs sh].
  unfold calculate_heat_transfer, try_except_ValueError, bind, get, lift,
    modify.
  cbn [entry_t_inside entry_t_outside entry_r_inside_film
         entry_r_outside_film entry_wall_area layers].
  destruct (py_float e1) as [ti|[]];
    try (eexists; reflexivity); try (exists rs; reflexivity).
  destruct (py_float e2) as [to|[]];
    try (eexists; reflexivity); try (exists rs; reflexivity).
  destruct (py_float e3) as [ri|[]];
    try (eexists; reflexivity); try (exists rs; reflexivity).
  destruct (py_float e4) as [ro|[]];
    try (eexists; reflexivity); try (exists rs; reflexivity).
  destruct (py_float e5) as [a|[]];
    try (eexists; reflexivity); try (exists rs; reflexivity).
  destruct (total_resistance ri ro ls) as [total|[]];
    try (eexists; reflexivity); try (exists rs; reflexivity).
  destruct (py_div (to - ti) total) as [q|[]];
    try (eexists; reflexivity); try (exists rs; reflexivity).
  destruct (py_div 1 total) as [u|[]];
    try (eexists; reflexivity); exists rs; reflexivity.
Qed.

Lemma add_series_layer_material (g : gui) (key : string) (v : float) :
  entry_r_value g = Blank ->
  combo_material g = key ->
  key <> "None" ->
  dict_get materials_r_values key = Some v ->
  layers (snd (add_series_layer g)) = (layers g ++ [Series v key])%list
  /\ entry_r_value (snd (add_series_layer g)) = Blank
  /\ combo_material (snd (add_series_layer g)) = "None".
Proof.
  intros Hblank Hcombo Hkey Hget.
  unfold add_series_layer, bind, get. rewrite Hblank, Hcombo.
  cbn [nonempty]. apply String.eqb_neq in Hkey. rewrite Hkey. cbn [negb].
  rewrite Hget. unfold modify, draw_layers, ret. cbn [snd].
  match goal with
  | |- context [calculate_heat_transfer ?g1] =>
      destruct (calculate_heat_transfer_only_results g1) as [d Hd];
      rewrite Hd
  end.
  repeat split.
Qed.

(** Every material the combobox offers can be added: with nothing typed and
    a material of the table selected, [add_series_layer] appends a series
    layer carrying that material's name and its table R-value, which is
    strictly positive, and puts the two inputs back to empty and ["None"].
    The table's names are pairwise distinct and none of them is ["None"]. *)
Theorem every_material_can_be_added (g : gui) (key : string) :
  In key (map fst materials_r_values) ->
  entry_r_value g = Blank ->
  combo_material g = key ->
  (exists v,
      dict_get materials_r_values key = Some v
      /\ (0 <? v) = true
      /\ layers (snd (add_series_layer g))
         = (layers g ++ [Series v key])%list
      /\ entry_r_value (snd (add_series_layer g)) = Blank
      /\ combo_material (snd (add_series_layer g)) = "None")
  /\ NoDup combo_values.
Proof.
  intros Hin Hblank Hcombo. split.
  - assert (Hall :
      forallb
        (fun k =>
           negb (String.eqb k "None")
           && match dict_get materials_r_values k with
              | Some v => 0 <? v
              | None => false
              end)
        (map fst materials_r_values) = true) by (vm_compute; reflexivity).
    rewrite forallb_forall in Hall. specialize (Hall key Hin).
    apply andb_prop in Hall. destruct Hall as [Hne Hv].
    apply negb_true_iff, String.eqb_neq in Hne.
    destruct (dict_get materials_r_values key) as [v|] eqn:Hget;
      [|discriminate].
    exists v. split; [reflexivity|]. split; [exact Hv|].
    apply add_series_layer_material; assumption.
  - unfold combo_values, materials_r_values. cbn [map fst].
    repeat (constructor;
            [cbn [In]; intro Hdup;
             repeat (destruct Hdup as [Hdup|Hdup]; [discriminate|]);
             exact Hdup|]).
    constructor.
Qed.

Lemma every_material_can_be_added_witness :
  layers
    (snd (add_series_layer
            (with_combo_material "2-inch Polyiso Foam Board (R=13.00)"
               initial)))
  = [Series 13 "2-inch Polyiso Foam Board (R=13.00)"].
Proof.
  destruct (proj1 (@every_material_can_be_added
                     (with_combo_material
                        "2-inch Polyiso Foam Board (R=13.00)" initial)
                     "2-inch Polyiso Foam Board (R=13.00)"
                     ltac:(cbn; tauto) eq_refl eq_refl))
    as [v [Hget [_ [Hl _]]]].
  rewrite Hl. vm_compute in Hget. inversion Hget. reflexivity.
Defined.

(** A typed text that is not a number, or a number [<= 0], is turned down
    with ["Please enter a positive numeric R-value."] and nothing else
    changes; a material selected at the same time is not used instead. *)
Theorem add_series_layer_rejects_bad_number (g : gui) :
  entry_r_value g = Unparsable
  \/ (exists v, entry_r_value g = Parsed v /\ (v <=? 0) = true) ->
  add_series_layer g
  = (Ret tt,
     with_shown
       (shown g
        ++ [showerror "Input Error"
              "Please enter a positive numeric R-value."]) g).
Proof.
  intros [Hbad|[v [Hv Hle]]]; unfold add_series_layer, bind, get.
  - rewrite Hbad. reflexivity.
  - rewrite Hv. cbn [nonempty py_float res_bind]. rewrite Hle. reflexivity.
Qed.

Lemma add_series_layer_rejects_bad_number_witness :
  add_series_layer
    (Gui Blank Blank Blank Blank Blank
       (Parsed (-3)) "1/2-inch Drywall (R=0.45)" Blank [] NoText [])
  = (Ret tt,
     Gui Blank Blank Blank Blank Blank
       (Parsed (-3)) "1/2-inch Drywall (R=0.45)" Blank [] NoText
       [showerror "Input Error" "Please enter a positive numeric R-value."]).
Proof.
  apply (@add_series_layer_rejects_bad_number
           (Gui Blank Blank Blank Blank Blank
              (Parsed (-3)) "1/2-inch Drywall (R=0.45)" Blank [] NoText [])).
  right. exists (-3). split; reflexivity.
Defined.

(** ** What an event can do to the layer list *)

Lemma add_series_layer_appends (g : gui) :
  layers (snd (add_series_layer g)) = layers g
  \/ exists r m,
       layers (snd (add_series_layer g)) = (layers g ++ [Series r m])%list.
Proof.
  unfold add_series_layer, bind, get.
  destruct (nonempty (entry_r_value g)).
  - destruct (entry_r_value g) as [| |x]; cbn [py_float res_bind];
      try (left; reflexivity).
    destruct (x <=? 0); [left; reflexivity|].
    right. exists x, "Custom R-value".
    unfold modify, draw_layers, ret. cbn [snd].
    now rewrite calculate_heat_transfer_layers.
  - destruct (negb (String.eqb (combo_material g) "None"));
      [|left; reflexivity].
    destruct (dict_get materials_r_values (combo_material g)) as [x|];
      [|left; reflexivity].
    right. exists x, (combo_material g).
    unfold modify, draw_layers, ret. cbn [snd].
    now rewrite calculate_heat_transfer_layers.
Qed.

Lemma all_validate_length n i wizard used ps total :
  all_validate n i wizard used ps total ->
  Z.of_nat (List.length ps) = (n - i)%Z.
Proof.
  induction 1 as [|i wizard used rv a m rest total Hi _ _ IH].
  - cbn. lia.
  - cbn [List.length]. lia.
Qed.

Lemma all_validate_total n i wizard used ps total :
  all_validate n i wizard used ps total ->
  total = fold_left (fun u p => u + area_percent p) ps used.
Proof.
  induction 1 as [|i wizard used rv a m rest total _ _ _ IH].
  - reflexivity.
  - cbn [fold_left area_percent]. exact IH.
Qed.

Lemma on_ok_accepted_area area_left last_path s rv a m :
  on_ok area_left last_path s = Accepted rv a m -> (a <=? 0) = false.
Proof.
  unfold on_ok.
  destruct (if nonempty (ent_r s) then _ else _) as [e|[x mat]];
    [discriminate|].
  destruct (ent_a s) as [| |y]; cbn [py_float res_bind]; try discriminate.
  destruct (y <=? 0) eqn:Hy; [discriminate|].
  destruct (negb last_path);
    [destruct (area_left <? y)|destruct (1e-6 <? abs (y - area_left))];
    intro E; inversion E; subst; try discriminate; exact Hy.
Qed.

Lemma first_accepted_area area_left last_path clicks rv a m :
  first_accepted area_left last_path clicks = Some (rv, a, m) ->
  (a <=? 0) = false.
Proof.
  induction clicks as [|s later IH]; cbn [first_accepted]; [discriminate|].
  destruct (on_ok area_left last_path s) as [e|rv' a' m'] eqn:Hok.
  - exact IH.
  - intro E; inversion E; subst. eapply on_ok_accepted_area; eassumption.
Qed.

Lemma all_validate_areas n i wizard used ps total :
  all_validate n i wizard used ps total ->
  Forall (fun p => (area_percent p <=? 0) = false) ps.
Proof.
  induction 1 as [|i wizard used rv a m rest total _ Hacc _ IH].
  - constructor.
  - constructor; [|exact IH]. cbn [area_percent].
    eapply first_accepted_area; eassumption.
Qed.

(** When [add_parallel_layer] changes [layers], the layer it appends has as
    many paths as asked for and passes the wizard's checks. *)
Lemma add_parallel_layer_commits
    (wizard : list (list submission)) (g : gui) :
  layers (snd (add_parallel_layer wizard g)) = layers g
  \/ exists ps,
       layers (snd (add_parallel_layer wizard g))
       = (layers g ++ [Parallel ps])%list
       /\ entry_num_paths g = Parsed (Z.of_nat (List.length ps))
       /\ parallel_layer_ok (Parallel ps).
Proof.
  destruct (add_parallel_layer_appends wizard g)
    as [Hl|(n & ps & total & Hv & Hl)]; [left; exact Hl|].
  revert Hl. unfold add_parallel_layer, bind, get.
  destruct (entry_num_paths g) as [| |n'] eqn:Hn; cbn [py_int res_bind];
    try (intro Hl; left; reflexivity).
  destruct (n' <=? 0)%Z eqn:Hpos; [intro Hl; left; reflexivity|].
  apply Z.leb_gt in Hpos.
  destruct (paths_wizard_validates (Z.to_nat n') 0 n' wizard [] 0 g
              ltac:(lia)) as [Hl' Hr].
  destruct (paths_wizard (Z.to_nat n') 0 n' wizard [] 0 g) as [r g1].
  cbn [fst snd] in Hl', Hr.
  destruct r as [[ps' total']|e]; [|intro Hl; left; exact Hl'].
  destruct Hr as [new [Hps Hv']]. cbn [app] in Hps. subst new.
  destruct (1e-6 <? abs (total' - 100)) eqn:Hcheck;
    [intro Hl; left; exact Hl'|].
  intro Hl. right. exists ps'. split; [|split].
  - unfold modify, draw_layers, ret. cbn [snd].
    rewrite calculate_heat_transfer_layers. cbn [layers with_layers].
    now rewrite Hl'.
  - pose proof (all_validate_length Hv') as Hlen. f_equal. lia.
  - cbn [parallel_layer_ok]. split; [|split].
    + pose proof (all_validate_length Hv') as Hlen.
      intro E; subst ps'. cbn in Hlen. lia.
    + eapply all_validate_areas; eassumption.
    + unfold area_sum. rewrite <- (all_validate_total Hv'). exact Hcheck.
Qed.

Lemma delete_nth_split {A} (before after : list A) (x : A) :
  (firstn (List.length before) (before ++ x :: after)
   ++ skipn (S (List.length before)) (before ++ x :: after))%list
  = (before ++ after)%list.
Proof.
  induction before as [|b before IH]; cbn [List.length firstn skipn app].
  - reflexivity.
  - f_equal. exact IH.
Qed.

(** An event leaves the layer list alone, appends one layer at its end, or
    removes one layer: it never reorders layers or alters a stored one. *)
Theorem callback_changes_layers (ev : event) (g : gui) :
  layers (step g ev) = layers g
  \/ (exists l, layers (step g ev) = (layers g ++ [l])%list)
  \/ (exists before l after,
        layers g = (before ++ l :: after)%list
        /\ layers (step g ev) = (before ++ after)%list).
Proof.
  unfold step.
  destruct ev as [b t| |t| |t| |t| |wizard| |index response];
    cbn [callback].
  - left. destruct b; reflexivity.
  - left. apply calculate_heat_transfer_layers.
  - left. reflexivity.
  - left. unfold on_typed_r_value_series, bind, get.
    destruct (nonempty (entry_r_value g)); reflexivity.
  - left. reflexivity.
  - left. unfold on_select_material_series, bind, get.
    destruct (String.eqb (combo_material g) "None"); reflexivity.
  - left. reflexivity.
  - destruct (add_series_layer_appends g) as [Hl|[r [m Hl]]].
    + left. exact Hl.
    + right. left. exists (Series r m). exact Hl.
  - destruct (add_parallel_layer_commits wizard g) as [Hl|[ps [Hl _]]].
    + left. exact Hl.
    + right. left. exists (Parallel ps). exact Hl.
  - unfold delete_last_layer, bind, get.
    destruct (layers g) as [|l ls] eqn:Hls.
    + left. cbn [show modify snd layers with_shown]. exact Hls.
    + right. right. unfold modify, draw_layers, ret. cbn [snd].
      rewrite calculate_heat_transfer_layers. cbn [layers with_layers].
      destruct (@exists_last _ (l :: ls) ltac:(discriminate))
        as [front [lst Hfront]].
      exists front, lst, []. rewrite Hfront, removelast_last, app_nil_r.
      split; reflexivity.
  - unfold confirm_delete_layer, bind, show, modify, get, lift.
    destruct response; [|left; reflexivity]. cbn [layers with_shown].
    destruct (py_del (layers g) index) as [kept|e] eqn:Hdel;
      [|left; reflexivity].
    right. right. unfold draw_layers, ret. cbn [snd].
    rewrite calculate_heat_transfer_layers. cbn [layers with_layers].
    unfold py_del in Hdel.
    destruct (_ || _)%bool eqn:Hrange in Hdel; [discriminate|].
    injection Hdel as Hdel. apply orb_false_elim in Hrange.
    destruct Hrange as [Hlo Hhi].
    apply Z.ltb_ge in Hlo. apply Z.leb_gt in Hhi.
    set (i := Z.to_nat
                (if (index <? 0)%Z
                 then (index + Z.of_nat (List.length (layers g)))%Z
                 else index)) in *.
    assert (Hi : (i < List.length (layers g))%nat) by (unfold i; lia).
    destruct (nth_split (layers g) (Series 0 "") Hi)
      as [before [after [Hsplit Hlen]]].
    exists before, (nth i (layers g) (Series 0 "")), after.
    split; [exact Hsplit|]. subst kept.
    generalize dependent (nth i (layers g) (Series 0 "")). intros x Hsplit.
    rewrite Hsplit, <- Hlen. apply delete_nth_split.
Qed.

(** ** Stored parallel layers *)

Lemma callback_keeps_parallel (ev : event) (g : gui) :
  Forall parallel_layer_ok (layers g) ->
  Forall parallel_layer_ok (layers (step g ev)).
Proof.
  intro Hinv. unfold step.
  destruct ev as [b t| |t| |t| |t| |wizard| |index response];
    cbn [callback].
  - destruct b; exact Hinv.
  - unfold auto_update. now rewrite calculate_heat_transfer_layers.
  - exact Hinv.
  - unfold on_typed_r_value_series, bind, get.
    destruct (nonempty (entry_r_value g)); exact Hinv.
  - exact Hinv.
  - unfold on_select_material_series, bind, get.
    destruct (String.eqb (combo_material g) "None"); exact Hinv.
  - exact Hinv.
  - destruct (add_series_layer_appends g) as [Hl|[r [m Hl]]]; rewrite Hl.
    + exact Hinv.
    + apply Forall_app. split; [exact Hinv|]. repeat constructor.
  - destruct (add_parallel_layer_commits wizard g) as [Hl|[ps [Hl [_ Hok]]]];
      rewrite Hl.
    + exact Hinv.
    + apply Forall_app. split; [exact Hinv|]. constructor; [exact Hok|].
      constructor.
  - unfold delete_last_layer, bind, get.
    destruct (layers g) as [|l ls] eqn:Hls.
    + cbn [show modify snd layers with_shown]. rewrite Hls. constructor.
    + unfold modify, draw_layers, ret. cbn [snd].
      rewrite calculate_heat_transfer_layers. cbn [layers with_layers].
      apply removelast_keeps. exact Hinv.
  - unfold confirm_delete_layer, bind, show, modify, get, lift.
    destruct response; [|exact Hinv]. cbn [layers with_shown].
    destruct (py_del (layers g) index) as [kept|e] eqn:Hdel; [|exact Hinv].
    unfold draw_layers, ret. cbn [snd].
    rewrite calculate_heat_transfer_layers. cbn [layers with_layers].
    eapply py_del_keeps; eassumption.
Qed.

(** In every state the program can reach, each stored parallel layer has at
    least one path, none of its areas compares [<= 0], and the running sum
    of its areas passes the test [abs(total - 100) > 1e-6] as not failing. *)
Theorem reachable_parallel_layers_ok (g : gui) :
  reachable g -> Forall parallel_layer_ok (layers g).
Proof.
  intros [evs ->]. unfold run.
  assert (H : forall evs g0,
             Forall parallel_layer_ok (layers g0) ->
             Forall parallel_layer_ok (layers (fold_left step evs g0))).
  { clear evs. induction evs as [|ev evs IH]; intros g0 H0; cbn [fold_left].
    - exact H0.
    - apply IH. apply callback_keeps_parallel. exact H0. }
  apply H. constructor.
Qed.

Lemma reachable_parallel_layers_ok_witness :
  Forall parallel_layer_ok
    (layers
       (run [Set_entry_num_paths (Parsed 2%Z);
             Click_add_parallel
               [ [Submission (Parsed 13) "None" (Parsed 80)];
                 [Submission (Parsed 1.11) "None" (Parsed 20)] ]]
          initial)).
Proof.
  apply reachable_parallel_layers_ok. eexists. reflexivity.
Defined.

(** ** Undoing and removing *)

Lemma delete_last_layer_after_append (g : gui) (ls : list (layer float))
    (l : layer float) :
  layers g = (ls ++ [l])%list ->
  layers (snd (delete_last_layer g)) = ls.
Proof.
  intro Hg. unfold delete_last_layer, bind, get.
  destruct (layers g) as [|x xs] eqn:Hls.
  - destruct ls; discriminate.
  - unfold modify, draw_layers, ret. cbn [snd].
    rewrite calculate_heat_transfer_layers. cbn [layers with_layers].
    rewrite Hg. apply removelast_last.
Qed.

(** "Delete Last Layer" undoes an addition: whenever [add_series_layer] or
    [add_parallel_layer] has stored a layer, [delete_last_layer] right after
    it gives back the layer list from before the addition. *)
Theorem delete_last_layer_undoes_add (g : gui)
    (wizard : list (list submission)) :
  (layers (snd (add_series_layer g)) <> layers g ->
   layers (snd (delete_last_layer (snd (add_series_layer g)))) = layers g)
  /\ (layers (snd (add_parallel_layer wizard g)) <> layers g ->
      layers (snd (delete_last_layer (snd (add_parallel_layer wizard g))))
      = layers g).
Proof.
  split; intro Hch.
  - destruct (add_series_layer_appends g) as [Hl|[r [m Hl]]];
      [contradiction|].
    eapply delete_last_layer_after_append. exact Hl.
  - destruct (add_parallel_layer_appends wizard g)
      as [Hl|(n & ps & total & _ & Hl)]; [contradiction|].
    eapply delete_last_layer_after_append. exact Hl.
Qed.

Lemma delete_last_layer_undoes_add_witness :
  layers
    (snd (delete_last_layer
            (snd (add_series_layer
                    (Gui (Parsed 70) (Parsed 20) (Parsed 0.68) (Parsed 0.17)
                       (Parsed 100) (Parsed 13) "None" Blank
                       [Series 0.45 "1/2-inch Drywall (R=0.45)"] NoText
                       [])))))
  = [Series 0.45 "1/2-inch Drywall (R=0.45)"].
Proof.
  apply (proj1 (@delete_last_layer_undoes_add
                  (Gui (Parsed 70) (Parsed 20) (Parsed 0.68) (Parsed 0.17)
                     (Parsed 100) (Parsed 13) "None" Blank
                     [Series 0.45 "1/2-inch Drywall (R=0.45)"] NoText [])
                  [])).
  cbn. discriminate.
Defined.

(** On a non-empty list, [delete_last_layer] drops exactly the last layer
    and recomputes on what is left; deleting index [len - 1], or index [-1],
    through [confirm_delete_layer] leaves the same layer list. *)
Theorem delete_last_layer_removes_last (g : gui) (ls : list (layer float))
    (l : layer float) :
  layers g = (ls ++ [l])%list ->
  delete_last_layer g = calculate_heat_transfer (with_layers ls g)
  /\ layers (snd (confirm_delete_layer
                    (Z.of_nat (List.length (layers g)) - 1) true g)) = ls
  /\ layers (snd (confirm_delete_layer (-1) true g)) = ls.
Proof.
  intro Hg. split; [|split].
  - unfold delete_last_layer, bind, get.
    destruct (layers g) as [|x xs] eqn:Hls.
    + destruct ls; discriminate.
    + unfold modify, draw_layers, ret.
      rewrite Hg, removelast_last. reflexivity.
  - unfold confirm_delete_layer, bind, show, modify, get, lift, py_del.
    cbn [layers with_shown]. rewrite Hg, length_app. cbn [List.length].
    replace (Z.of_nat (List.length ls + 1) - 1)%Z
      with (Z.of_nat (List.length ls)) by lia.
    destruct (Z.of_nat (List.length ls) <? 0)%Z eqn:Hneg;
      [apply Z.ltb_lt in Hneg; lia|].
    rewrite Hneg. cbn [orb].
    destruct (Z.of_nat (List.length ls + 1) <=? Z.of_nat (List.length ls))%Z
      eqn:Hle; [apply Z.leb_le in Hle; lia|].
    unfold draw_layers, ret. cbn [snd].
    rewrite calculate_heat_transfer_layers. cbn [layers with_layers].
    rewrite Nat2Z.id, delete_nth_split. apply app_nil_r.
  - unfold confirm_delete_layer, bind, show, modify, get, lift, py_del.
    cbn [layers with_shown]. rewrite Hg, length_app. cbn [List.length].
    change (-1 <? 0)%Z with true. cbv iota.
    replace (-1 + Z.of_nat (List.length ls + 1))%Z
      with (Z.of_nat (List.length ls)) by lia.
    destruct (Z.of_nat (List.length ls) <? 0)%Z eqn:Hneg;
      [apply Z.ltb_lt in Hneg; lia|].
    cbn [orb].
    destruct (Z.of_nat (List.length ls + 1) <=? Z.of_nat (List.length ls))%Z
      eqn:Hle; [apply Z.leb_le in Hle; lia|].
    unfold draw_layers, ret. cbn [snd].
    rewrite calculate_heat_transfer_layers. cbn [layers with_layers].
    rewrite Nat2Z.id, delete_nth_split. apply app_nil_r.
Qed.

Lemma delete_last_layer_removes_last_witness :
  layers
    (snd (confirm_delete_layer (-1) true
            (with_layers
               [Series 0.45 "1/2-inch Drywall (R=0.45)";
                Series 13 "Custom R-value"] initial)))
  = [Series 0.45 "1/2-inch Drywall (R=0.45)"].
Proof.
  apply (proj2 (proj2
    (@delete_last_layer_removes_last
       (with_layers
          [Series 0.45 "1/2-inch Drywall (R=0.45)";
           Series 13 "Custom R-value"] initial)
       [Series 0.45 "1/2-inch Drywall (R=0.45)"]
       (Series 13 "Custom R-value") eq_refl))).
Defined.

(** ** Parallel layers: path count, closed dialogs *)

(** A path count that is empty, not an integer, or an integer [<= 0] makes
    [add_parallel_layer] show its error box and do nothing else: no dialog
    is opened, whatever the user would have submitted. *)
Theorem add_parallel_layer_rejects_bad_count
    (wizard : list (list submission)) (g : gui) :
  py_int (entry_num_paths g) = Raise ValueError
  \/ (exists n, entry_num_paths g = Parsed n /\ (n <= 0)%Z) ->
  add_parallel_layer wizard g
  = (Ret tt,
     with_shown
       (shown g
        ++ [showerror "Input Error"
              "Please enter a valid positive integer for # of parallel paths."])
       g).
Proof.
  intros [Hbad|[n [Hn Hle]]]; unfold add_parallel_layer, bind, get.
  - rewrite Hbad. reflexivity.
  - rewrite Hn. cbn [py_int res_bind].
    rewrite (proj2 (Z.leb_le n 0) Hle). reflexivity.
Qed.

Lemma add_parallel_layer_rejects_bad_count_witness :
  add_parallel_layer
    [ [Submission (Parsed 13) "None" (Parsed 100)] ]
    (with_entry_num_paths (Parsed 0%Z) initial)
  = (Ret tt,
     with_shown
       [showerror "Input Error"
          "Please enter a valid positive integer for # of parallel paths."]
       (with_entry_num_paths (Parsed 0%Z) initial)).
Proof.
  apply (@add_parallel_layer_rejects_bad_count
           [ [Submission (Parsed 13) "None" (Parsed 100)] ]
           (with_entry_num_paths (Parsed 0%Z) initial)).
  right. exists 0%Z. split; [reflexivity|lia].
Defined.

Lemma calculate_heat_transfer_raise_kind (g : gui) (e : exn) :
  fst (calculate_heat_transfer g) = Raise e -> e = ZeroDivisionError.
Proof.
  unfold calculate_heat_transfer, try_except_ValueError, bind, get, lift,
    modify.
  destruct (entry_t_inside g) as [| |ti]; cbn [py_float fst];
    try discriminate.
  destruct (entry_t_outside g) as [| |to]; cbn [py_float fst];
    try discriminate.
  destruct (entry_r_inside_film g) as [| |ri]; cbn [py_float fst];
    try discriminate.
  destruct (entry_r_outside_film g) as [| |ro]; cbn [py_float fst];
    try discriminate.
  destruct (entry_wall_area g) as [| |a]; cbn [py_float fst];
    try discriminate.
  destruct (total_resistance ri ro (layers g)) as [total|e1] eqn:Ht.
  - unfold py_div. cbn [is_zero binary64].
    destruct (total =? 0); cbn [fst]; [|discriminate].
    intro E; inversion E; reflexivity.
  - pose proof (layers_loop_raises _ _ Ht) as He. subst e1. cbn [fst].
    intro E; inversion E; reflexivity.
Qed.

Lemma dialog_results (area_left : float) (last_path : bool)
    (clicks : list submission) :
  forall g, results (snd (dialog area_left last_path clicks g)) = results g.
Proof.
  induction clicks as [|s later IH]; intro g; cbn [dialog].
  - reflexivity.
  - destruct (on_ok area_left last_path s) as [error|rv a m];
      [|reflexivity].
    unfold bind, show, modify.
    rewrite (IH (with_shown (shown g ++ [error]) g)). reflexivity.
Qed.

Lemma paths_wizard_outcome (k : nat) :
  forall i n wizard paths used g,
    results (snd (paths_wizard k i n wizard paths used g)) = results g
    /\ forall e, fst (paths_wizard k i n wizard paths used g) = Raise e ->
                 e = TypeError.
Proof.
  induction k as [|k IH]; intros i n wizard paths used g;
    cbn [paths_wizard].
  - split; [reflexivity|discriminate].
  - unfold bind, prompt_parallel_path.
    pose proof (dialog_results (100 - used) (i =? n - 1)%Z (hd [] wizard) g)
      as Hres.
    destruct (dialog_first_accepted (100 - used) (i =? n - 1)%Z
                (hd [] wizard) g) as [Hr _].
    destruct (dialog (100 - used) (i =? n - 1)%Z (hd [] wizard) g)
      as [r g1]. cbn [fst snd] in Hr, Hres. subst r.
    destruct (first_accepted (100 - used) (i =? n - 1)%Z (hd [] wizard))
      as [[[rv a] m]|].
    + destruct (IH (i + 1)%Z n (tl wizard) (paths ++ [Path rv a m])%list
                  (used + a) g1) as [IHres IHe].
      split; [congruence|exact IHe].
    + cbn [lift fst snd]. split; [exact Hres|].
      intros e E; inversion E; reflexivity.
Qed.

(** With a valid path count, [add_parallel_layer] ends in an uncaught
    [TypeError] exactly when some dialog is closed without an accepted
    submission; then neither the layer list nor the results label has
    changed. *)
Theorem add_parallel_layer_closed_dialog
    (wizard : list (list submission)) (g : gui) (n : Z) :
  entry_num_paths g = Parsed n ->
  (0 < n)%Z ->
  (fst (add_parallel_layer wizard g) = Raise TypeError
   <-> ~ exists ps total, all_validate n 0 wizard 0 ps total)
  /\ (fst (add_parallel_layer wizard g) = Raise TypeError ->
      layers (snd (add_parallel_layer wizard g)) = layers g
      /\ results (snd (add_parallel_layer wizard g)) = results g).
Proof.
  intros Hn Hpos. unfold add_parallel_layer, bind, get. rewrite Hn.
  cbn [py_int res_bind]. rewrite (proj2 (Z.leb_gt n 0) Hpos).
  destruct (paths_wizard_validates (Z.to_nat n) 0 n wizard [] 0 g
              ltac:(lia)) as [Hl Hr].
  destruct (paths_wizard_outcome (Z.to_nat n) 0 n wizard [] 0 g)
    as [Hres Hkind].
  destruct (paths_wizard (Z.to_nat n) 0 n wizard [] 0 g) as [r g1].
  cbn [fst snd] in Hl, Hr, Hres, Hkind. destruct r as [[ps total]|e].
  - destruct Hr as [new [Hps Hv]]. cbn [app] in Hps. subst new.
    assert (Hall : exists ps0 total0, all_validate n 0 wizard 0 ps0 total0)
      by (exists ps, total; exact Hv).
    destruct (1e-6 <? abs (total - 100)).
    + cbn [show modify fst]. split.
      * split; [discriminate|]. intro Hnone. contradiction.
      * discriminate.
    + unfold modify, draw_layers, ret.
      assert (Hno : forall g0,
                 fst (calculate_heat_transfer g0) <> Raise TypeError).
      { intros g0 E. apply calculate_heat_transfer_raise_kind in E.
        discriminate. }
      split.
      * split; [intro E; exfalso; exact (Hno _ E)|].
        intro Hnone. contradiction.
      * intro E. exfalso. exact (Hno _ E).
  - pose proof (Hkind e eq_refl) as He. subst e. cbn [fst snd]. split.
    + split; [|reflexivity]. intros _ (ps & total & Hv).
      exact (Hr _ _ Hv).
    + intros _. split; assumption.
Qed.

(** Three paths asked for, the second dialog closed at once. *)
Lemma add_parallel_layer_closed_dialog_witness :
  fst (add_parallel_layer
         [ [Submission (Parsed 13) "None" (Parsed 60)] ]
         (with_entry_num_paths (Parsed 3%Z) initial))
  = Raise TypeError.
Proof.
  apply (proj1 (@add_parallel_layer_closed_dialog
                  [ [Submission (Parsed 13) "None" (Parsed 60)] ]
                  (with_entry_num_paths (Parsed 3%Z) initial) 3%Z
                  eq_refl eq_refl)).
  intros (ps & total & Hv).
  inversion Hv as [|i w u rv a m rest t Hi Hacc Hrest]; subst.
  inversion Hrest as [|i w u rv' a' m' rest' t' Hi' Hacc' Hrest']; subst;
    discriminate.
Defined.

(** ** The OK handler: areas of the earlier paths, bad sources, NaN *)

(** For a path that is not the last one, a numeric area [v] submitted with a
    valid R-value source is accepted iff [0 < v <= area_left]; a positive
    [v] above [area_left] gets the box that names both numbers; [v <= 0]
    gets the positive-area box. *)
Theorem on_ok_non_last_path (s : submission) (rv : float) (m : string)
    (area_left v : float) :
  valid_source s rv m ->
  ent_a s = Parsed v ->
  is_nan v = false ->
  is_nan area_left = false ->
  (on_ok area_left false s = Accepted rv v m
   <-> (0 <? v) = true /\ (v <=? area_left) = true)
  /\ ((0 <? v) = true ->
      (v <=? area_left) = false ->
      on_ok area_left false s
      = Rejected (showerror_exceeds_remaining v area_left))
  /\ ((v <=? 0) = true ->
      on_ok area_left false s
      = Rejected (showerror "Area Error"
                    "Please enter a positive area percent.")).
Proof.
  intros Hsrc Ha Hv Hleft.
  rewrite (on_ok_valid_source area_left false Hsrc), Ha. cbn [negb].
  assert (Hpos : (0 <? v) = negb (v <=? 0))
    by (apply ltb_negb_leb; [exact Hv|reflexivity]).
  assert (Hfit : (area_left <? v) = negb (v <=? area_left))
    by (apply ltb_negb_leb; assumption).
  rewrite Hpos, Hfit.
  destruct (v <=? 0); destruct (v <=? area_left);
    cbn [negb]; repeat split; intros; try reflexivity; try discriminate;
    try (destruct H; discriminate).
Qed.

Lemma on_ok_non_last_path_witness :
  on_ok 40 false (Submission (Parsed 13) "None" (Parsed 60))
  = Rejected (showerror_exceeds_remaining 60 40).
Proof.
  refine (proj1 (proj2
    (@on_ok_non_last_path (Submission (Parsed 13) "None" (Parsed 60))
       13 "Custom R-value" 40 60 _ _ _ _)) _ _);
    try reflexivity.
  apply source_typed; reflexivity.
Defined.

(** The R-value source is checked before the area: a typed text that is not
    a number, or is [<= 0], gets the ["R-value Error"] box, and an empty
    entry with ["None"] or an unknown name selected gets the
    ["Input Error"] box, whatever the area entry holds and for either kind
    of path. *)
Theorem on_ok_rejects_bad_source (s : submission) (area_left : float)
    (last_path : bool) :
  (ent_r s = Unparsable
   \/ (exists v, ent_r s = Parsed v /\ (v <=? 0) = true) ->
   on_ok area_left last_path s
   = Rejected (showerror "R-value Error"
                 "Please enter a positive numeric R-value."))
  /\ (ent_r s = Blank ->
      combo_r s = "None"
      \/ dict_get materials_r_values (combo_r s) = None ->
      on_ok area_left last_path s
      = Rejected (showerror "Input Error"
                    "Please type an R-value or select a material.")).
Proof.
  split.
  - intros [Hbad|[v [Hv Hle]]]; unfold on_ok.
    + rewrite Hbad. reflexivity.
    + rewrite Hv. cbn [nonempty py_float res_bind]. rewrite Hle.
      reflexivity.
  - intros Hblank Hnone. unfold on_ok. rewrite Hblank. cbn [nonempty].
    destruct Hnone as [Hn|Hn]; rewrite Hn.
    + reflexivity.
    + destruct (negb (String.eqb (combo_r s) "None")); reflexivity.
Qed.

Lemma on_ok_rejects_bad_source_witness :
  on_ok 100 false (Submission Blank "Brick" (Parsed (-7)))
  = Rejected (showerror "Input Error"
                "Please type an R-value or select a material.").
Proof.
  apply (proj2 (@on_ok_rejects_bad_source
                  (Submission Blank "Brick" (Parsed (-7))) 100 false)).
  - reflexivity.
  - right. reflexivity.
Defined.

Lemma ltb_nan_r (x : float) : (x <? nan) = false.
Proof.
  rewrite FloatAxioms.ltb_spec. change (Prim2SF nan) with S754_nan.
  unfold SFltb. destruct (Prim2SF x); reflexivity.
Qed.

Lemma sub_nan_l (x : float) : nan - x = nan.
Proof.
  apply Prim2SF_inj. rewrite FloatAxioms.sub_spec.
  change (Prim2SF nan) with S754_nan. reflexivity.
Qed.

Lemma sub_nan_r (x : float) : x - nan = nan.
Proof.
  apply Prim2SF_inj. rewrite FloatAxioms.sub_spec.
  change (Prim2SF nan) with S754_nan. unfold SF64sub.
  destruct (Prim2SF x); reflexivity.
Qed.

(** The area text ["nan"] passes every area check: with a valid source it
    is accepted for any path, whatever area is left; and once the area used
    so far is NaN, every later area that is not [<= 0] is accepted too, and
    the final test against 100 does not fail. *)
Theorem on_ok_accepts_nan_area (s : submission) (rv : float) (m : string)
    (area_left : float) (last_path : bool) :
  valid_source s rv m ->
  (ent_a s = Parsed nan -> on_ok area_left last_path s = Accepted rv nan m)
  /\ (forall a,
        ent_a s = Parsed a -> (a <=? 0) = false ->
        on_ok (100 - nan) last_path s = Accepted rv a m)
  /\ (1e-6 <? abs (nan - 100)) = false.
Proof.
  intro Hsrc. split; [|split].
  - intro Ha. rewrite (on_ok_valid_source area_left last_path Hsrc), Ha.
    change (nan <=? 0) with false. cbv iota.
    rewrite ltb_nan_r, sub_nan_l. change (abs nan) with nan.
    rewrite ltb_nan_r. destruct (negb last_path); reflexivity.
  - intros a Ha Hpos.
    rewrite (on_ok_valid_source (100 - nan) last_path Hsrc), Ha, Hpos.
    change (100 - nan) with nan.
    assert (Hlt : (nan <? a) = false).
    { rewrite FloatAxioms.ltb_spec. change (Prim2SF nan) with S754_nan.
      reflexivity. }
    rewrite Hlt, sub_nan_r. change (abs nan) with nan.
    rewrite ltb_nan_r. destruct (negb last_path); reflexivity.
  - reflexivity.
Qed.

(** Two paths, areas ["nan"] and 7: the layer is committed. *)
Lemma on_ok_accepts_nan_area_witness :
  on_ok 100 false (Submission (Parsed 13) "None" (Parsed nan))
  = Accepted 13 nan "Custom R-value"
  /\ on_ok (100 - nan) true (Submission (Parsed 13) "None" (Parsed 7))
     = Accepted 13 7 "Custom R-value".
Proof.
  split.
  - refine (proj1
      (@on_ok_accepts_nan_area
         (Submission (Parsed 13) "None" (Parsed nan)) 13 "Custom R-value"
         100 false _) _);
      [apply source_typed|]; reflexivity.
  - refine (proj1 (proj2
      (@on_ok_accepts_nan_area
         (Submission (Parsed 13) "None" (Parsed 7)) 13 "Custom R-value"
         100 true _)) 7 _ _);
      [apply source_typed| |]; reflexivity.
Defined.

(** ** Typed value or material, never both *)

Lemma calculate_heat_transfer_sources (g : gui) :
  entry_r_value (snd (calculate_heat_transfer g)) = entry_r_value g
  /\ combo_material (snd (calculate_heat_transfer g)) = combo_material g.
Proof.
  destruct (calculate_heat_transfer_only_results g) as [d Hd].
  rewrite Hd. split; reflexivity.
Qed.

Lemma dialog_sources (area_left : float) (last_path : bool)
    (clicks : list submission) :
  forall g,
    entry_r_value (snd (dialog area_left last_path clicks g))
    = entry_r_value g
    /\ combo_material (snd (dialog area_left last_path clicks g))
       = combo_material g.
Proof.
  induction clicks as [|s later IH]; intro g; cbn [dialog].
  - split; reflexivity.
  - destruct (on_ok area_left last_path s) as [error|rv a m];
      [|split; reflexivity].
    unfold bind, show, modify.
    destruct (IH (with_shown (shown g ++ [error]) g)) as [H1 H2].
    split; [exact H1|exact H2].
Qed.

Lemma paths_wizard_sources (k : nat) :
  forall i n wizard paths used g,
    entry_r_value (snd (paths_wizard k i n wizard paths used g))
    = entry_r_value g
    /\ combo_material (snd (paths_wizard k i n wizard paths used g))
       = combo_material g.
Proof.
  induction k as [|k IH]; intros i n wizard paths used g;
    cbn [paths_wizard].
  - split; reflexivity.
  - unfold bind, prompt_parallel_path.
    destruct (dialog_sources (100 - used) (i =? n - 1)%Z (hd [] wizard) g)
      as [H1 H2].
    destruct (dialog (100 - used) (i =? n - 1)%Z (hd [] wizard) g)
      as [r g1]. cbn [snd] in H1, H2.
    destruct r as [[[[rv a] m]|]|e]; cbn [lift snd];
      try (split; assumption).
    destruct (IH (i + 1)%Z n (tl wizard) (paths ++ [Path rv a m])%list
                (used + a) g1) as [H3 H4].
    split; congruence.
Qed.

Lemma callback_sources (ev : event) (g : gui) :
  match ev with
  | Set_entry_r_value _ | Set_combo_material _
  | KeyRelease_entry_r_value | ComboboxSelected => True
  | _ =>
      (nonempty (entry_r_value g) = true -> combo_material g = "None") ->
      nonempty (entry_r_value (step g ev)) = true ->
      combo_material (step g ev) = "None"
  end.
Proof.
  unfold step.
  destruct ev as [b t| |t| |t| |t| |wizard| |index response];
    cbn [callback]; try exact I.
  - destruct b; exact (fun H => H).
  - unfold auto_update.
    destruct (calculate_heat_transfer_sources g) as [H1 H2].
    rewrite H1, H2. exact (fun H => H).
  - exact (fun H => H).
  - intro Hinv. unfold add_series_layer, bind, get.
    destruct (nonempty (entry_r_value g)) eqn:Hne.
    + destruct (entry_r_value g) as [| |x] eqn:He;
        cbn [py_float res_bind].
      * discriminate.
      * cbn [show modify snd entry_r_value combo_material with_shown].
        rewrite He. exact Hinv.
      * destruct (x <=? 0).
        -- cbn [show modify snd entry_r_value combo_material with_shown].
           rewrite He. exact Hinv.
        -- unfold modify, draw_layers, ret.
           match goal with
           | |- context [calculate_heat_transfer ?g1] =>
               destruct (calculate_heat_transfer_sources g1) as [H1 H2]
           end.
           rewrite H1, H2. discriminate.
    + destruct (if negb (String.eqb (combo_material g) "None")
                then dict_get materials_r_values (combo_material g)
                else None) as [x|].
      * unfold modify, draw_layers, ret.
        match goal with
        | |- context [calculate_heat_transfer ?g1] =>
            destruct (calculate_heat_transfer_sources g1) as [H1 H2]
        end.
        rewrite H1, H2. discriminate.
      * cbn [show modify snd entry_r_value combo_material with_shown].
        rewrite Hne. discriminate.
  - intro Hinv. unfold add_parallel_layer, bind, get.
    destruct (entry_num_paths g) as [| |n]; cbn [py_int res_bind];
      try exact Hinv.
    destruct (n <=? 0)%Z; [exact Hinv|].
    destruct (paths_wizard_sources (Z.to_nat n) 0 n wizard [] 0 g)
      as [H1 H2].
    destruct (paths_wizard (Z.to_nat n) 0 n wizard [] 0 g) as [r g1].
    cbn [snd] in H1, H2. destruct r as [[ps total]|e]; cbn [snd].
    + destruct (1e-6 <? abs (total - 100)).
      * cbn [show modify snd entry_r_value combo_material with_shown].
        rewrite H1, H2. exact Hinv.
      * unfold modify, draw_layers, ret.
        match goal with
        | |- context [calculate_heat_transfer ?g2] =>
            destruct (calculate_heat_transfer_sources g2) as [H3 H4]
        end.
        rewrite H3, H4.
        cbn [entry_r_value combo_material with_layers].
        rewrite H1, H2. exact Hinv.
    + rewrite H1, H2. exact Hinv.
  - intro Hinv. unfold delete_last_layer, bind, get.
    destruct (layers g) as [|l ls]; [exact Hinv|].
    unfold modify, draw_layers, ret.
    match goal with
    | |- context [calculate_heat_transfer ?g1] =>
        destruct (calculate_heat_transfer_sources g1) as [H1 H2]
    end.
    rewrite H1, H2. exact Hinv.
  - intro Hinv. unfold confirm_delete_layer, bind, show, modify, get, lift.
    destruct response; [|exact Hinv]. cbn [layers with_shown].
    destruct (py_del (layers g) index) as [kept|e]; [|exact Hinv].
    unfold draw_layers, ret.
    match goal with
    | |- context [calculate_heat_transfer ?g1] =>
        destruct (calculate_heat_transfer_sources g1) as [H1 H2]
    end.
    rewrite H1, H2. exact Hinv.
Qed.

Lemma gesture_keeps_sources_apart (a : gesture) (g : gui) :
  (nonempty (entry_r_value g) = true -> combo_material g = "None") ->
  nonempty (entry_r_value (run (events_of a) g)) = true ->
  combo_material (run (events_of a) g) = "None".
Proof.
  intro Hinv.
  destruct a as [b t|t|choice|t| |wizard| |index response];
    cbn [events_of run fold_left].
  - apply (callback_sources KeyRelease_boundary).
    apply (callback_sources (Set_boundary b t)). exact Hinv.
  - unfold step. cbn [callback modify snd].
    unfold on_typed_r_value_series, bind, get.
    cbn [entry_r_value with_entry_r_value].
    destruct (nonempty t) eqn:Ht.
    + reflexivity.
    + cbn [ret snd entry_r_value with_entry_r_value]. rewrite Ht.
      discriminate.
  - unfold step. cbn [callback modify snd].
    unfold on_select_material_series, bind, get.
    cbn [combo_material with_combo_material].
    destruct (String.eqb choice "None") eqn:Hc.
    + intros _. cbn [ret snd combo_material with_combo_material].
      apply String.eqb_eq. exact Hc.
    + cbn [modify snd entry_r_value with_entry_r_value nonempty].
      discriminate.
  - exact Hinv.
  - apply (callback_sources Click_add_series). exact Hinv.
  - apply (callback_sources (Click_add_parallel wizard)). exact Hinv.
  - apply (callback_sources Click_delete_last). exact Hinv.
  - apply (callback_sources (Click_delete index response)). exact Hinv.
Qed.

(** As long as the user edits the usual way (typing fires the key-release
    handler, picking a material fires the selection handler), a typed
    R-value and a selected material are never present together: in the main
    window after any sequence of such gestures and button presses, and in a
    path dialog from its opening on. *)
Theorem sources_stay_exclusive (gs : list gesture)
    (ds : list dialog_gesture) (prefill : field float) :
  (nonempty (entry_r_value (run (flat_map events_of gs) initial)) = true ->
   combo_material (run (flat_map events_of gs) initial) = "None")
  /\ (nonempty (ent_r (fold_left dialog_step ds (dialog_opens prefill)))
      = true ->
      combo_r (fold_left dialog_step ds (dialog_opens prefill)) = "None").
Proof.
  split.
  - assert (H : forall g,
               (nonempty (entry_r_value g) = true ->
                combo_material g = "None") ->
               nonempty (entry_r_value (run (flat_map events_of gs) g))
               = true ->
               combo_material (run (flat_map events_of gs) g) = "None").
    { induction gs as [|a gs IH]; intros g Hinv; cbn [flat_map].
      - exact Hinv.
      - unfold run. rewrite fold_left_app. apply IH.
        apply gesture_keeps_sources_apart. exact Hinv. }
    apply H. discriminate.
  - assert (H : forall s,
               (nonempty (ent_r s) = true -> combo_r s = "None") ->
               nonempty (ent_r (fold_left dialog_step ds s)) = true ->
               combo_r (fold_left dialog_step ds s) = "None").
    { induction ds as [|a ds IH]; intros s Hinv; cbn [fold_left].
      - exact Hinv.
      - apply IH. destruct a as [t|choice|t]; cbn [dialog_step].
        + unfold on_typed_r_value_parallel. cbn [ent_r combo_r ent_a].
          destruct (nonempty t) eqn:Ht; cbn [ent_r combo_r].
          * reflexivity.
          * rewrite Ht. discriminate.
        + unfold on_select_material_parallel. cbn [ent_r combo_r ent_a].
          destruct (String.eqb choice "None") eqn:Hc; cbn [ent_r combo_r].
          * intros _. apply String.eqb_eq. exact Hc.
          * discriminate.
        + exact Hinv. }
    apply H. discriminate.
Qed.

(** ** The canvas: buttons and columns *)

Lemma tag_eqb_eq (a b : tag) : tag_eqb a b = true -> a = b.
Proof.
  destruct a, b; cbn [tag_eqb]; try discriminate; intro H;
    try (apply Z.eqb_eq in H; subst; reflexivity).
  apply andb_prop in H. destruct H as [H1 H2].
  apply Z.eqb_eq in H1, H2. subst. reflexivity.
Qed.

Lemma tag_eqb_refl (a : tag) : tag_eqb a a = true.
Proof.
  destruct a; cbn [tag_eqb]; rewrite ?Z.eqb_refl; reflexivity.
Qed.

(** The newest binding of a tag decides what a click does. *)
Lemma bound_newest (P : tag * sequence * command -> Prop)
    (bs old : list (tag * sequence * command)) (t : tag) (c : canvas) :
  bindings c = (bs ++ old)%list ->
  Forall P bs ->
  (exists cmd, In (t, Button_1, cmd) bs) ->
  exists cmd, bound c t Button_1 = Some cmd /\ P (t, Button_1, cmd).
Proof.
  intros Hc Hok [cmd0 Hin]. unfold bound. rewrite Hc. clear Hc.
  induction bs as [|[[t1 s1] c1] bs IH]; [destruct Hin|].
  cbn [app find fst snd].
  destruct (tag_eqb t1 t && sequence_eqb s1 Button_1) eqn:E.
  - apply andb_prop in E. destruct E as [Et Es].
    apply tag_eqb_eq in Et. subst t1.
    destruct s1; try discriminate.
    exists c1. split; [reflexivity|]. inversion Hok; assumption.
  - destruct Hin as [Hhd|Htl].
    + injection Hhd as -> -> ->. rewrite tag_eqb_refl in E. discriminate.
    + inversion Hok; subst. apply IH; assumption.
Qed.

Lemma item_ok_more (lo hi x : Z) (bs bs' : list (tag * sequence * command))
    (it : item) :
  incl bs bs' -> item_ok lo hi x bs it -> item_ok lo hi x bs' it.
Proof.
  intros Hincl [Htag Hrect]. split; [|exact Hrect].
  intros t Ht. destruct (Htag t Ht) as [Hr [cmd Hin]].
  split; [exact Hr|]. exists cmd. apply Hincl. exact Hin.
Qed.

Lemma item_ok_wider (lo hi x : Z) (bs : list (tag * sequence * command))
    (it : item) :
  item_ok (lo + 1) hi (x + 110) bs it -> item_ok lo hi x bs it.
Proof.
  intros [Htag Hrect]. split.
  - intros t Ht. destruct (Htag t Ht) as [Hr Hin]. split; [lia|exact Hin].
  - intros x0 y0 x1 y1 fill t Hit. specialize (Hrect x0 y0 x1 y1 fill t Hit).
    destruct (is_delete_tag t).
    + destruct Hrect as (H0 & H1 & Hf). repeat split; subst; try f_equal;
        try lia; reflexivity.
    + destruct Hrect as (H0 & H1). split; subst; f_equal; lia.
Qed.

Lemma item_ok_upto (lo hi hi' x : Z) (bs : list (tag * sequence * command))
    (it : item) :
  (hi <= hi')%Z -> item_ok lo hi x bs it -> item_ok lo hi' x bs it.
Proof.
  intros Hle [Htag Hrect]. split; [|exact Hrect].
  intros t Ht. destruct (Htag t Ht) as [Hr Hin]. split; [lia|exact Hin].
Qed.

Lemma item_ok_untagged_text (lo hi x : Z)
    (bs : list (tag * sequence * command)) (a b : num) (text : caption) :
  item_ok lo hi x bs (create_text a b text None).
Proof.
  split; [intros t Ht|intros x0 y0 x1 y1 fill t Ht]; discriminate.
Qed.

Lemma item_ok_tagged_text (i x : Z) (bs : list (tag * sequence * command))
    (a b : num) (text : caption) (t : tag) (cmd : command) :
  tag_layer t = i ->
  In (t, Button_1, cmd) bs ->
  item_ok i (i + 1) x bs (create_text a b text (Some t)).
Proof.
  intros Hi Hin. split; [intros t' Ht|intros x0 y0 x1 y1 fill t' Ht];
    [|discriminate].
  injection Ht as <-. split; [lia|]. exists cmd. exact Hin.
Qed.

Lemma item_ok_column (i x : Z) (bs : list (tag * sequence * command))
    (y0 y1 : num) (fill : string) (t : tag) (cmd : command) :
  tag_layer t = i ->
  is_delete_tag t = false ->
  In (t, Button_1, cmd) bs ->
  item_ok i (i + 1) x bs
    (create_rectangle (Int x) y0 (Int (x + 100)) y1 fill t).
Proof.
  intros Hi Hd Hin. split; [intros t' Ht|intros x0 y0' x1 y1' fill' t' Ht].
  - injection Ht as <-. split; [lia|]. exists cmd. exact Hin.
  - injection Ht as <- <- <- <- <- <-. rewrite Hd. split; f_equal; lia.
Qed.

Lemma item_ok_delete_button (i x : Z) (bs : list (tag * sequence * command))
    (y0 y1 : num) (t : tag) (cmd : command) :
  tag_layer t = i ->
  is_delete_tag t = true ->
  In (t, Button_1, cmd) bs ->
  item_ok i (i + 1) x bs
    (create_rectangle (Int (x + 100 - 20)) y0 (Int (x + 100 - 5)) y1 "red" t).
Proof.
  intros Hi Hd Hin. split; [intros t' Ht|intros x0 y0' x1 y1' fill' t' Ht].
  - injection Ht as <-. split; [lia|]. exists cmd. exact Hin.
  - injection Ht as <- <- <- <- <- <-. rewrite Hd.
    repeat split; f_equal; lia.
Qed.

(** What the inner loop adds to the canvas for the paths of layer [i]. *)
Lemma draw_paths_spec (i x : Z) (ps : list (path float)) :
  forall j y c,
    exists its bs,
      items (draw_paths i x j ps y c) = (items c ++ its)%list
      /\ bindings (draw_paths i x j ps y c) = (bs ++ bindings c)%list
      /\ Forall binding_ok bs
      /\ Forall (item_ok i (i + 1) x bs) its
      /\ (j = 0%Z -> ps <> [] ->
          exists y0 y1,
            In (create_rectangle (Int (x + 100 - 20)) y0 (Int (x + 100 - 5))
                  y1 "red" (delete_parallel_ i)) its).
Proof.
  induction ps as [|p rest IH]; intros j y c; cbn [draw_paths].
  - exists [], []. rewrite app_nil_r. repeat split; try constructor.
    intros _ H. now destruct H.
  - match goal with
    | |- context [draw_paths i x (j + 1) rest ?y1 ?c1] =>
        destruct (IH (j + 1)%Z y1 c1) as (its & bs & Hi & Hb & Hbok & Hiok & _);
        rewrite Hi, Hb; clear Hi Hb
    end.
    destruct (j =? 0)%Z eqn:Ej;
      cbn [draw_delete_button bind_hover tag_bind create items bindings].
    + eexists (_ :: _ :: _ :: _ :: its),
        (bs ++ _ :: _ :: _ :: _ :: _ :: _ :: [])%list.
      split; [rewrite <- !app_assoc; cbn [app]; reflexivity|].
      split; [rewrite <- !app_assoc; cbn [app]; reflexivity|].
      split; [|split].
      * apply Forall_app. split; [exact Hbok|].
        repeat constructor; cbn; try discriminate. eexists; reflexivity.
      * apply Forall_cons;
          [|apply Forall_cons;
             [|apply Forall_cons; [|apply Forall_cons]]].
        -- eapply item_ok_column; [reflexivity|reflexivity|].
           apply in_or_app. right. cbn. do 5 right. left. reflexivity.
        -- apply item_ok_untagged_text.
        -- eapply item_ok_delete_button; [reflexivity|reflexivity|].
           apply in_or_app. right. cbn. do 2 right. left. reflexivity.
        -- eapply item_ok_tagged_text; [reflexivity|].
           apply in_or_app. right. cbn. do 2 right. left. reflexivity.
        -- eapply Forall_impl; [|exact Hiok]. intros it.
           apply item_ok_more. apply incl_appl. apply incl_refl.
      * intros _ _. do 2 eexists. right. right. left. reflexivity.
    + eexists (_ :: _ :: its), (bs ++ _ :: _ :: _ :: [])%list.
      split; [rewrite <- !app_assoc; cbn [app]; reflexivity|].
      split; [rewrite <- !app_assoc; cbn [app]; reflexivity|].
      split; [|split].
      * apply Forall_app. split; [exact Hbok|].
        repeat constructor; cbn; try discriminate. eexists; reflexivity.
      * apply Forall_cons; [|apply Forall_cons].
        -- eapply item_ok_column; [reflexivity|reflexivity|].
           apply in_or_app. right. cbn. do 2 right. left. reflexivity.
        -- apply item_ok_untagged_text.
        -- eapply Forall_impl; [|exact Hiok]. intros it.
           apply item_ok_more. apply incl_appl. apply incl_refl.
      * intros Hj. subst j. discriminate.
Qed.

(** What the outer loop adds to the canvas for the layers [i], [i + 1], ...,
    the first of them drawn at [x]. *)
Lemma draw_loop_spec (ls : list (layer float)) :
  forall i x c,
    exists its bs,
      fst (draw_loop i x ls c) = (x + 110 * Z.of_nat (List.length ls))%Z
      /\ items (snd (draw_loop i x ls c)) = (items c ++ its)%list
      /\ bindings (snd (draw_loop i x ls c)) = (bs ++ bindings c)%list
      /\ Forall binding_ok bs
      /\ Forall (item_ok i (i + Z.of_nat (List.length ls)) x bs) its
      /\ (Forall has_paths ls ->
          forall k,
            (i <= k < i + Z.of_nat (List.length ls))%Z ->
            exists x0 y0 x1 y1 fill t,
              In (create_rectangle x0 y0 x1 y1 fill t) its
              /\ is_delete_tag t = true /\ tag_layer t = k).
Proof.
  induction ls as [|l rest IH]; intros i x c.
  - exists [], []. cbn [draw_loop fst snd List.length app].
    rewrite app_nil_r. repeat split; try constructor; try lia.
  - assert (Hlen : (i + Z.of_nat (List.length (l :: rest))
                    = i + 1 + Z.of_nat (List.length rest))%Z)
      by (cbn [List.length]; lia).
    rewrite Hlen.
    assert (Hx : forall x',
               (x' = x + (100 + 10) + 110 * Z.of_nat (List.length rest)
                -> x' = x + 110 * Z.of_nat (List.length (l :: rest)))%Z)
      by (cbn [List.length]; lia).
    destruct l as [r_val material|ps]; cbn [draw_loop].
    + match goal with
      | |- context [draw_loop (i + 1) (x + (100 + 10)) rest ?c1] =>
          destruct (IH (i + 1)%Z (x + (100 + 10))%Z c1)
            as (its & bs & Hfst & Hi & Hb & Hbok & Hiok & Hall);
          rewrite Hi, Hb; clear Hi Hb
      end.
      cbn [draw_delete_button bind_hover tag_bind create items bindings].
      eexists (_ :: _ :: _ :: _ :: its),
        (bs ++ _ :: _ :: _ :: _ :: _ :: _ :: [])%list.
      split; [apply Hx; exact Hfst|].
      split; [rewrite <- !app_assoc; cbn [app]; reflexivity|].
      split; [rewrite <- !app_assoc; cbn [app]; reflexivity|].
      split; [|split].
      * apply Forall_app. split; [exact Hbok|].
        repeat constructor; cbn; try discriminate. eexists; reflexivity.
      * apply Forall_cons;
          [|apply Forall_cons;
             [|apply Forall_cons; [|apply Forall_cons]]].
        -- apply item_ok_upto with (hi := (i + 1)%Z); [lia|].
           eapply item_ok_column; [reflexivity|reflexivity|].
           apply in_or_app. right. cbn. do 5 right. left. reflexivity.
        -- apply item_ok_untagged_text.
        -- apply item_ok_upto with (hi := (i + 1)%Z); [lia|].
           eapply item_ok_delete_button; [reflexivity|reflexivity|].
           apply in_or_app. right. cbn. do 2 right. left. reflexivity.
        -- apply item_ok_upto with (hi := (i + 1)%Z); [lia|].
           eapply item_ok_tagged_text; [reflexivity|].
           apply in_or_app. right. cbn. do 2 right. left. reflexivity.
        -- eapply Forall_impl; [|exact Hiok]. intros it Hit.
           apply item_ok_more with (bs := bs);
             [apply incl_appl; apply incl_refl|].
           apply item_ok_wider. exact Hit.
      * intros Hps k Hk. inversion Hps as [|? ? _ Hrest]; subst.
        destruct (Z.eq_dec k i) as [->|Hne].
        -- do 6 eexists. split; [right; right; left; reflexivity|].
           split; reflexivity.
        -- destruct (Hall Hrest k) as (x0 & y0 & x1 & y1 & fill & t & Hin & Ht);
             [lia|].
           exists x0, y0, x1, y1, fill, t. split; [|exact Ht].
           do 4 right. exact Hin.
    + destruct (draw_paths_spec i x ps 0%Z (Int 10) c)
        as (its1 & bs1 & Hi1 & Hb1 & Hbok1 & Hiok1 & Hdel).
      destruct (IH (i + 1)%Z (x + (100 + 10))%Z
                  (draw_paths i x 0 ps (Int 10) c))
        as (its & bs & Hfst & Hi & Hb & Hbok & Hiok & Hall).
      rewrite Hi, Hb, Hi1, Hb1. clear Hi Hb Hi1 Hb1.
      exists (its1 ++ its)%list, (bs ++ bs1)%list.
      split; [apply Hx; exact Hfst|].
      split; [rewrite app_assoc; reflexivity|].
      split; [rewrite app_assoc; reflexivity|].
      split; [|split].
      * apply Forall_app. split; assumption.
      * apply Forall_app. split.
        -- eapply Forall_impl; [|exact Hiok1]. intros it Hit.
           apply item_ok_more with (bs := bs1);
             [apply incl_appr; apply incl_refl|].
           apply item_ok_upto with (hi := (i + 1)%Z); [lia|exact Hit].
        -- eapply Forall_impl; [|exact Hiok]. intros it Hit.
           apply item_ok_more with (bs := bs);
             [apply incl_appl; apply incl_refl|].
           apply item_ok_wider. exact Hit.
      * intros Hps k Hk. inversion Hps as [|? ? Hne0 Hrest]; subst.
        destruct (Z.eq_dec k i) as [->|Hne].
        -- destruct (Hdel eq_refl Hne0) as (y0 & y1 & Hin).
           do 6 eexists. split; [apply in_or_app; left; exact Hin|].
           split; reflexivity.
        -- destruct (Hall Hrest k) as (x0 & y0 & x1 & y1 & fill & t & Hin & Ht);
             [lia|].
           exists x0, y0, x1, y1, fill, t. split; [|exact Ht].
           apply in_or_app. right. exact Hin.
Qed.

(** [draw_layers] as a whole: the canvas holds the items of this drawing
    only, and every tag on it has been bound anew. *)
Lemma draw_layers_on_spec (winfo_width : Z) (ls : list (layer float))
    (c0 : canvas) :
  exists bs,
    bindings (draw_layers_on winfo_width ls c0) = (bs ++ bindings c0)%list
    /\ scrollregion (draw_layers_on winfo_width ls c0)
       = (0, 0,
          Z.max (10 + 110 * Z.of_nat (List.length ls) + 20) winfo_width,
          600)%Z
    /\ Forall binding_ok bs
    /\ Forall (item_ok 0 (Z.of_nat (List.length ls)) 10 bs)
         (items (draw_layers_on winfo_width ls c0))
    /\ (Forall has_paths ls ->
        forall k,
          (0 <= k < Z.of_nat (List.length ls))%Z ->
          exists x0 y0 x1 y1 fill t,
            In (create_rectangle x0 y0 x1 y1 fill t)
              (items (draw_layers_on winfo_width ls c0))
            /\ is_delete_tag t = true /\ tag_layer t = k).
Proof.
  unfold draw_layers_on.
  destruct (draw_loop_spec ls 0 10
              (Canvas [] (bindings c0) (scrollregion c0)))
    as (its & bs & Hfst & Hi & Hb & Hbok & Hiok & Hall).
  destruct (draw_loop 0 10 ls (Canvas [] (bindings c0) (scrollregion c0)))
    as [x c].
  cbn [fst snd items bindings scrollregion app] in *.
  subst x. rewrite Hi, Hb. exists bs.
  repeat split; assumption.
Qed.

Lemma run_keeps_parallel (evs : list event) :
  forall g,
    Forall parallel_layer_ok (layers g) ->
    Forall parallel_layer_ok (layers (run evs g)).
Proof.
  unfold run. induction evs as [|ev evs IH]; intros g Hg; cbn [fold_left].
  - exact Hg.
  - apply IH. apply callback_keeps_parallel. exact Hg.
Qed.

Lemma parallel_layer_ok_has_paths (l : layer float) :
  parallel_layer_ok l -> has_paths l.
Proof.
  destruct l as [r m|ps]; cbn [parallel_layer_ok has_paths];
    [exact (fun H => H)|]. intros [H _]. exact H.
Qed.

(** A click on a drawn delete button: the newest binding of its tag. *)
Lemma delete_tag_bound (winfo_width : Z) (ls : list (layer float))
    (c0 : canvas) (it : item) (t : tag) :
  In it (items (draw_layers_on winfo_width ls c0)) ->
  item_tag it = Some t ->
  is_delete_tag t = true ->
  bound (draw_layers_on winfo_width ls c0) t Button_1
  = Some (call_confirm_delete_layer (tag_layer t))
  /\ (0 <= tag_layer t < Z.of_nat (List.length ls))%Z.
Proof.
  intros Hin Htag Hdel.
  destruct (draw_layers_on_spec winfo_width ls c0)
    as (bs & Hb & _ & Hbok & Hiok & _).
  rewrite Forall_forall in Hiok.
  destruct (Hiok it Hin) as [Ht _].
  destruct (Ht t Htag) as [Hrange Hbound].
  destruct (@bound_newest binding_ok bs (bindings c0) t _ Hb Hbok Hbound)
    as (cmd & Hcmd & Hok).
  unfold binding_ok in Hok. cbn [fst snd] in Hok. rewrite Hdel in Hok.
  specialize (Hok eq_refl). subst cmd.
  split; [exact Hcmd|exact Hrange].
Qed.

(** On the canvas that [draw_layers] paints from the layer list, every item
    of a delete button (tag [delete_i] or [delete_parallel_i]) answers a
    click with [confirm_delete_layer(i)] for its own [i], whatever older
    drawings had bound to that tag; [i] is the index of an existing layer, so
    that the confirmed deletion does not end in an [IndexError] and removes
    the layer at position [i] and no other. *)
Theorem delete_button_deletes_its_layer (winfo_width : Z) (c0 : canvas)
    (g : gui) (it : item) (t : tag) :
  In it (items (draw_layers_on winfo_width (layers g) c0)) ->
  item_tag it = Some t ->
  is_delete_tag t = true ->
  bound (draw_layers_on winfo_width (layers g) c0) t Button_1
  = Some (call_confirm_delete_layer (tag_layer t))
  /\ (0 <= tag_layer t < Z.of_nat (List.length (layers g)))%Z
  /\ fst (confirm_delete_layer (tag_layer t) true g) <> Raise IndexError
  /\ exists before l after,
       layers g = (before ++ l :: after)%list
       /\ List.length before = Z.to_nat (tag_layer t)
       /\ layers (snd (confirm_delete_layer (tag_layer t) true g))
          = (before ++ after)%list.
Proof.
  intros Hin Htag Hdel.
  destruct (@delete_tag_bound _ _ _ _ _ Hin Htag Hdel) as [Hcmd Hrange].
  split; [exact Hcmd|]. split; [exact Hrange|].
  set (k := tag_layer t) in *.
  assert (Hsplit : exists before l after,
             layers g = (before ++ l :: after)%list
             /\ List.length before = Z.to_nat k).
  { assert (Hk : (Z.to_nat k < List.length (layers g))%nat) by lia.
    destruct (nth_error (layers g) (Z.to_nat k)) as [l|] eqn:Hnth.
    - destruct (nth_error_split _ _ Hnth) as (before & after & Hl & Hlen).
      exists before, l, after. split; assumption.
    - apply nth_error_None in Hnth. lia. }
  destruct Hsplit as (before & l & after & Hl & Hlen).
  assert (Hdelk : py_del (layers g) k = Ret (before ++ after)%list).
  { unfold py_del.
    destruct (k <? 0)%Z eqn:Hneg; [apply Z.ltb_lt in Hneg; lia|].
    rewrite Hneg. cbn [orb].
    destruct (Z.of_nat (List.length (layers g)) <=? k)%Z eqn:Hle;
      [apply Z.leb_le in Hle; lia|].
    rewrite Hl. rewrite <- Hlen. rewrite delete_nth_split.
    reflexivity. }
  unfold confirm_delete_layer, bind, show, modify, get, lift.
  cbn [layers with_shown]. rewrite Hdelk. unfold draw_layers, ret.
  split.
  - intro E. apply calculate_heat_transfer_raise_kind in E. discriminate.
  - exists before, l, after. split; [exact Hl|]. split; [exact Hlen|].
    cbn [snd]. rewrite calculate_heat_transfer_layers. reflexivity.
Qed.

Lemma delete_button_deletes_its_layer_witness :
  bound
    (draw_layers_on 800
       [Series 13 "Custom R-value";
        Parallel [Path 13 80 "Custom R-value"; Path 1.11 20 "Custom R-value"]]
       (tag_bind (delete_parallel_ 1) Button_1 (call_confirm_delete_layer 7)
          canvas_created))
    (delete_parallel_ 1) Button_1
  = Some (call_confirm_delete_layer 1)
  /\ fst (confirm_delete_layer 1 true
            (with_layers
               [Series 13 "Custom R-value";
                Parallel [Path 13 80 "Custom R-value";
                          Path 1.11 20 "Custom R-value"]] initial))
     <> Raise IndexError.
Proof.
  destruct (@delete_button_deletes_its_layer 800
              (tag_bind (delete_parallel_ 1) Button_1
                 (call_confirm_delete_layer 7) canvas_created)
              (with_layers
                 [Series 13 "Custom R-value";
                  Parallel [Path 13 80 "Custom R-value";
                            Path 1.11 20 "Custom R-value"]] initial)
              (create_rectangle (Int 200) (Int 15) (Int 215) (Int 30) "red"
                 (delete_parallel_ 1))
              (delete_parallel_ 1))
    as (Hb & _ & Hr & _).
  - vm_compute. do 6 right. left. reflexivity.
  - reflexivity.
  - reflexivity.
  - split; [exact Hb|exact Hr].
Defined.

(** [draw_layers] puts layer [i] in a column of its own: every
    rectangle it draws carries the index [i] of an existing layer in its tag
    and spans [10 + 110 i .. 10 + 110 i + 100] horizontally, a delete button
    being the red square at [+ 80 .. + 95] of that column; and the scroll
    region is made [110 n + 30] wide for [n] layers, or as wide as the window
    if that is more. *)
Theorem rectangles_stand_in_columns (winfo_width : Z)
    (ls : list (layer float)) (c0 : canvas) :
  scrollregion (draw_layers_on winfo_width ls c0)
  = (0, 0, Z.max (110 * Z.of_nat (List.length ls) + 30) winfo_width, 600)%Z
  /\ forall x0 y0 x1 y1 fill t,
       In (create_rectangle x0 y0 x1 y1 fill t)
         (items (draw_layers_on winfo_width ls c0)) ->
       (0 <= tag_layer t < Z.of_nat (List.length ls))%Z
       /\ if is_delete_tag t
          then x0 = Int (10 + 110 * tag_layer t + 80)
               /\ x1 = Int (10 + 110 * tag_layer t + 95)
               /\ fill = "red"
          else x0 = Int (10 + 110 * tag_layer t)
               /\ x1 = Int (10 + 110 * tag_layer t + 100).
Proof.
  destruct (draw_layers_on_spec winfo_width ls c0)
    as (bs & _ & Hs & _ & Hiok & _).
  split.
  - rewrite Hs. do 2 f_equal. f_equal. lia.
  - intros x0 y0 x1 y1 fill t Hin.
    rewrite Forall_forall in Hiok.
    destruct (Hiok _ Hin) as [Ht Hrect].
    split; [exact (proj1 (Ht t eq_refl))|].
    specialize (Hrect x0 y0 x1 y1 fill t eq_refl).
    replace (tag_layer t - 0)%Z with (tag_layer t) in Hrect by lia.
    exact Hrect.
Qed.

Lemma rectangles_stand_in_columns_witness :
  scrollregion
    (draw_layers_on 200
       [Series 13 "Custom R-value";
        Parallel [Path 13 80 "Custom R-value"; Path 1.11 20 "Custom R-value"]]
       canvas_created)
  = (0, 0, 250, 600)%Z.
Proof.
  exact (proj1 (@rectangles_stand_in_columns 200
                  [Series 13 "Custom R-value";
                   Parallel [Path 13 80 "Custom R-value";
                             Path 1.11 20 "Custom R-value"]]
                  canvas_created)).
Defined.

(** In every state the program can reach, each layer has its delete
    button on the canvas drawn from the layer list: for every index [k] of a
    layer there is a red rectangle whose click calls
    [confirm_delete_layer(k)].  (A parallel layer gets its button with its
    first path; [add_parallel_layer] stores no layer without paths.) *)
Theorem every_layer_has_its_delete_button (winfo_width : Z) (c0 : canvas)
    (g : gui) (k : Z) :
  reachable g ->
  (0 <= k < Z.of_nat (List.length (layers g)))%Z ->
  exists x0 y0 x1 y1 t,
    In (create_rectangle x0 y0 x1 y1 "red" t)
      (items (draw_layers_on winfo_width (layers g) c0))
    /\ bound (draw_layers_on winfo_width (layers g) c0) t Button_1
       = Some (call_confirm_delete_layer k).
Proof.
  intros [evs ->] Hk.
  destruct (draw_layers_on_spec winfo_width (layers (run evs initial)) c0)
    as (bs & _ & _ & _ & Hiok & Hall).
  destruct (Hall (Forall_impl _ parallel_layer_ok_has_paths
                    (run_keeps_parallel evs initial (Forall_nil _))) k Hk)
    as (x0 & y0 & x1 & y1 & fill & t & Hin & Hdel & Ht).
  rewrite Forall_forall in Hiok.
  destruct (Hiok _ Hin) as [_ Hrect].
  specialize (Hrect x0 y0 x1 y1 fill t eq_refl). rewrite Hdel in Hrect.
  destruct Hrect as (_ & _ & ->).
  exists x0, y0, x1, y1, t. split; [exact Hin|].
  destruct (@delete_tag_bound _ _ _ _ _ Hin eq_refl Hdel) as [Hb _].
  rewrite Hb, Ht. reflexivity.
Qed.

Lemma every_layer_has_its_delete_button_witness :
  exists x0 y0 x1 y1 t,
    In (create_rectangle x0 y0 x1 y1 "red" t)
      (items
         (draw_layers_on 800
            (layers
               (run [Set_entry_r_value (Parsed 13); Click_add_series]
                  initial))
            canvas_created))
    /\ bound
         (draw_layers_on 800
            (layers
               (run [Set_entry_r_value (Parsed 13); Click_add_series]
                  initial))
            canvas_created) t Button_1
       = Some (call_confirm_delete_layer 0).
Proof.
  apply every_layer_has_its_delete_button.
  - eexists. reflexivity.
  - vm_compute. split; [discriminate|reflexivity].
Defined.

(** *** What a click on a layer shows *)

Lemma nth_error_middle {A} (before after : list A) (x : A) :
  nth_error (before ++ x :: after) (List.length before) = Some x.
Proof.
  induction before as [|b before IH]; cbn [List.length app nth_error];
    [reflexivity|exact IH].
Qed.

Lemma draw_paths_info (ls : list (layer float)) (i x : Z)
    (ps : list (path float)) :
  forall pdone j y c,
    nth_error ls (Z.to_nat i) = Some (Parallel (pdone ++ ps)) ->
    j = Z.of_nat (List.length pdone) ->
    exists bs,
      bindings (draw_paths i x j ps y c) = (bs ++ bindings c)%list
      /\ Forall (binding_shows ls) bs.
Proof.
  induction ps as [|p rest IH]; intros pdone j y c Hnth Hj;
    cbn [draw_paths].
  - exists []. split; [reflexivity|constructor].
  - match goal with
    | |- context [draw_paths i x (j + 1) rest ?y1 ?c1] =>
        destruct (IH (pdone ++ [p])%list (j + 1)%Z y1 c1) as (bs & Hb & Hbok);
        [rewrite <- app_assoc; exact Hnth
        |rewrite last_length; lia
        |rewrite Hb; clear Hb]
    end.
    assert (Hp : binding_shows ls
                   (path_ i j, Button_1,
                    call_show_layer_info
                      (Parallel_Path (r_value p) (area_percent p)
                         (material p)))).
    { intros _ _. eexists. split; [|reflexivity].
      cbn [fst info_of]. rewrite Hnth, Hj, Nat2Z.id, nth_error_middle.
      reflexivity. }
    destruct (j =? 0)%Z;
      cbn [draw_delete_button bind_hover tag_bind create items bindings].
    + eexists (bs ++ _ :: _ :: _ :: _ :: _ :: _ :: [])%list.
      split; [rewrite <- !app_assoc; cbn [app]; reflexivity|].
      apply Forall_app. split; [exact Hbok|].
      repeat (apply Forall_cons; [try (intros H1 H2; discriminate)|]);
        [exact Hp|constructor].
    + eexists (bs ++ _ :: _ :: _ :: [])%list.
      split; [rewrite <- !app_assoc; cbn [app]; reflexivity|].
      apply Forall_app. split; [exact Hbok|].
      repeat (apply Forall_cons; [try (intros H1 H2; discriminate)|]);
        [exact Hp|constructor].
Qed.

Lemma draw_loop_info (ls rest : list (layer float)) :
  forall done i x c,
    ls = (done ++ rest)%list ->
    i = Z.of_nat (List.length done) ->
    exists bs,
      bindings (snd (draw_loop i x rest c)) = (bs ++ bindings c)%list
      /\ Forall (binding_shows ls) bs.
Proof.
  induction rest as [|l rest IH]; intros done i x c Hls Hi.
  - exists []. split; [reflexivity|constructor].
  - assert (Hnth : nth_error ls (Z.to_nat i) = Some l)
      by (rewrite Hls, Hi, Nat2Z.id; apply nth_error_middle).
    destruct l as [r_val material|ps]; cbn [draw_loop].
    + match goal with
      | |- context [draw_loop (i + 1) (x + (100 + 10)) rest ?c1] =>
          destruct (IH (done ++ [Series r_val material])%list (i + 1)%Z
                      (x + (100 + 10))%Z c1) as (bs & Hb & Hbok);
          [rewrite <- app_assoc; exact Hls
          |rewrite last_length; lia
          |rewrite Hb; clear Hb]
      end.
      cbn [draw_delete_button bind_hover tag_bind create items bindings].
      eexists (bs ++ _ :: _ :: _ :: _ :: _ :: _ :: [])%list.
      split; [rewrite <- !app_assoc; cbn [app]; reflexivity|].
      apply Forall_app. split; [exact Hbok|].
      repeat (apply Forall_cons; [try (intros H1 H2; discriminate)|]);
        [|constructor].
      intros _ _. eexists. split; [|reflexivity].
      cbn [fst info_of]. rewrite Hnth. reflexivity.
    + destruct (@draw_paths_info ls i x ps [] 0%Z (Int 10) c Hnth eq_refl)
        as (bs1 & Hb1 & Hbok1).
      destruct (IH (done ++ [Parallel ps])%list (i + 1)%Z
                  (x + (100 + 10))%Z (draw_paths i x 0 ps (Int 10) c))
        as (bs & Hb & Hbok);
        [rewrite <- app_assoc; exact Hls|rewrite last_length; lia|].
      rewrite Hb, Hb1. exists (bs ++ bs1)%list.
      split; [rewrite app_assoc; reflexivity|].
      apply Forall_app. split; assumption.
Qed.

(** A click on the rectangle of a series layer or of a path shows the
    data of that very layer or path: the rectangle tagged [layer_i] is bound
    to [show_layer_info] with the R-value and material of [layers[i]], the
    one tagged [path_i_j] with the R-value, area percent and material of
    [layers[i]['paths'][j]], whatever an older drawing had bound to the
    tag. *)
Theorem click_shows_own_layer (winfo_width : Z) (ls : list (layer float))
    (c0 : canvas) (it : item) (t : tag) :
  In it (items (draw_layers_on winfo_width ls c0)) ->
  item_tag it = Some t ->
  is_delete_tag t = false ->
  exists name,
    info_of ls t = Some name
    /\ bound (draw_layers_on winfo_width ls c0) t Button_1
       = Some (call_show_layer_info name).
Proof.
  intros Hin Htag Hdel.
  destruct (draw_layers_on_spec winfo_width ls c0)
    as (bs & Hb & _ & _ & Hiok & _).
  rewrite Forall_forall in Hiok.
  destruct (Hiok it Hin) as [Ht _].
  destruct (Ht t Htag) as [_ Hbound].
  assert (Hshows : Forall (binding_shows ls) bs).
  { destruct (@draw_loop_info ls ls [] 0%Z 10%Z
                (Canvas [] (bindings c0) (scrollregion c0)) eq_refl eq_refl)
      as (bs' & Hb' & Hok').
    unfold draw_layers_on in Hb.
    destruct (draw_loop 0 10 ls (Canvas [] (bindings c0) (scrollregion c0)))
      as [x c].
    cbn [snd bindings] in Hb, Hb'. rewrite Hb' in Hb.
    apply app_inv_tail in Hb. subst bs'. exact Hok'. }
  destruct (@bound_newest (binding_shows ls) bs (bindings c0) t _ Hb Hshows
              Hbound) as (cmd & Hcmd & Hok).
  destruct (Hok eq_refl Hdel) as (name & Hname & Hc).
  cbn [fst snd] in Hname, Hc. subst cmd.
  exists name. split; assumption.
Qed.

Lemma click_shows_own_layer_witness :
  exists name,
    info_of
      [Series 13 "Custom R-value";
       Parallel [Path 13 80 "Custom R-value"; Path 1.11 20 "Custom R-value"]]
      (path_ 1 1)
    = Some name
    /\ bound
         (draw_layers_on 800
            [Series 13 "Custom R-value";
             Parallel [Path 13 80 "Custom R-value";
                       Path 1.11 20 "Custom R-value"]]
            (tag_bind (path_ 1 1) Button_1
               (call_show_layer_info (Series_Layer 5 "Custom R-value"))
               canvas_created))
         (path_ 1 1) Button_1
       = Some (call_show_layer_info name).
Proof.
  apply (@click_shows_own_layer 800 _ _
           (create_rectangle (Int 120) (Flt 170) (Int 220) (Flt 210) "green"
              (path_ 1 1))).
  - vm_compute. do 8 right. left. reflexivity.
  - reflexivity.
  - reflexivity.
Defined.
